(** * KnowHOWREPR: the bootstrap representation of the object model

    A shallow embedding of [src/metamodel/reprs/KnowHOWREPR.c].  The C code
    manipulates garbage-collected PMC headers and [mem_allocate]d structs
    through pointers, and reports unsupported operations by throwing a Parrot
    exception.  We model the interpreter as an explicit store of typed cells
    indexed by addresses, and every C function as a computation in a small
    state-and-exception monad over that store. *)

From stdpp Require Import gmap strings list.

Local Open Scope N_scope.
Local Open Scope string_scope.

(** ** Values of the virtual machine *)

(** A [PMC *] (and any other pointer) is an address; [NULL] is address 0. *)
Abbreviation PMC := N (only parsing).
Abbreviation ptr := N (only parsing).
Abbreviation INTVAL := Z (only parsing).

Definition NULL : ptr := 0.

(** Exception kinds of the virtual machine.  The representation only ever
    throws [EXCEPTION_INVALID_OPERATION], which is how an "unsupported
    operation" failure is surfaced. *)
Inductive exception_type :=
| EXCEPTION_INVALID_OPERATION
| EXCEPTION_NULL_REG_ACCESS
| EXCEPTION_OUT_OF_BOUNDS.

(** The two built-in container classes handed to [pmc_new]. *)
Inductive base_type :=
| enum_class_Hash
| enum_class_ResizablePMCArray.

(** The class recorded in a PMC header. *)
Inductive pmc_class :=
| class_builtin (b : base_type)
| class_RakudoObject
| class_STable.

(** A PMC header: its class and the [PMC_data] pointer. *)
Record PMC_header := mkPMC {
  pmc_vtable : pmc_class;
  pmc_data : ptr
}.

(** Modelled from the spec: the struct declarations of [rakudoobject.h] and
    [KnowHOWREPR.h] are missing.  Every object body starts with the
    commonalities, which hold the reference to the STable; a KnowHOW instance
    adds the method mapping and the attribute sequence; an STable links the
    meta-object, the representation and the type object. *)
Record RakudoObjectCommonalities := mkCommon {
  stable : PMC
}.

Record KnowHOWREPRInstance := mkKnowHOW {
  common : RakudoObjectCommonalities;
  methods : PMC;
  attributes : PMC
}.

Record STable := mkSTable {
  HOW : PMC;
  REPR : PMC;
  WHAT : PMC
}.

(** Field assignments [p->common.stable = v], [p->methods = v],
    [p->attributes = v] and [st->WHAT = v] on the struct values. *)
Definition set_stable (v : PMC) (i : KnowHOWREPRInstance) : KnowHOWREPRInstance :=
  {| common := {| stable := v |}; methods := methods i; attributes := attributes i |}.

Definition set_methods (v : PMC) (i : KnowHOWREPRInstance) : KnowHOWREPRInstance :=
  {| common := common i; methods := v; attributes := attributes i |}.

Definition set_attributes (v : PMC) (i : KnowHOWREPRInstance) : KnowHOWREPRInstance :=
  {| common := common i; methods := methods i; attributes := v |}.

Definition set_WHAT (v : PMC) (st : STable) : STable :=
  {| HOW := HOW st; REPR := REPR st; WHAT := v |}.

(** What an allocated address holds.  [Cell_RakudoObject] is the body of an
    object of another representation: only the leading commonalities, which
    every body shares, are modelled. *)
Inductive cell :=
| Cell_PMC (h : PMC_header)
| Cell_KnowHOWREPRInstance (i : KnowHOWREPRInstance)
| Cell_RakudoObject (c : RakudoObjectCommonalities)
| Cell_STable (st : STable)
| Cell_Hash (h : gmap string N)
| Cell_ResizablePMCArray (l : list N).

(** The view of an object body through a pointer to
    [RakudoObjectCommonalities]. *)
Definition commonalities_of (c : cell) : option RakudoObjectCommonalities :=
  match c with
  | Cell_KnowHOWREPRInstance i => Some (common i)
  | Cell_RakudoObject c => Some c
  | _ => None
  end.

(** The interpreter: the store, and the log of the PMCs handed to the
    collector's marking callback, oldest first. *)
Record Interp := mkInterp {
  mem : gmap N cell;
  gc_alive : list N
}.

Definition with_mem (f : gmap N cell → gmap N cell) (s : Interp) : Interp :=
  {| mem := f (mem s); gc_alive := gc_alive s |}.

(** ** The monad of C computations *)

(** A call returns a value, leaves through a thrown exception, or dereferences
    an address that holds no cell of the expected type (undefined behaviour
    in C). *)
Inductive outcome (A : Type) :=
| Returned (a : A)
| Thrown (e : exception_type) (msg : string)
| Crashed.
Arguments Returned {A} a.
Arguments Thrown {A} e msg.
Arguments Crashed {A}.

Definition M (A : Type) : Type := Interp → outcome A * Interp.

#[global] Instance M_ret : MRet M := λ A a s, (Returned a, s).

#[global] Instance M_bind : MBind M := λ A B f c s,
  match c s with
  | (Returned a, s') => f a s'
  | (Thrown e msg, s') => (Thrown e msg, s')
  | (Crashed, s') => (Crashed, s')
  end.

Definition crash {A} : M A := λ s, (Crashed, s).

(** ** Example interpreters *)

(** The interpreter left by [type_object_for] called with representation 7
    and meta-object 8 on an empty store, when [PMCNULL] is [NULL]: the type
    object is PMC 4. *)
Definition example_type_object : Interp :=
  {| mem :=
       <[1:=Cell_KnowHOWREPRInstance (mkKnowHOW (mkCommon 3) 0 0)]>
         (<[2:=Cell_STable (mkSTable 8 7 4)]>
            (<[3:=Cell_PMC (mkPMC class_STable 2)]>
               {[4:=Cell_PMC (mkPMC class_RakudoObject 1)]}));
     gc_alive := [] |}.

(** An interpreter holding a defined instance, PMC 10, with STable reference
    3, a method mapping (PMC 12, an empty Hash) and a null attribute
    sequence. *)
Definition example_instance : Interp :=
  {| mem :=
       <[10:=Cell_PMC (mkPMC class_RakudoObject 11)]>
         (<[11:=Cell_KnowHOWREPRInstance (mkKnowHOW (mkCommon 3) 12 0)]>
            (<[12:=Cell_PMC (mkPMC (class_builtin enum_class_Hash) 13)]>
               {[13:=Cell_Hash ∅]}));
     gc_alive := [5] |}.

(** An interpreter without dangling pointers: a type object, PMC 4, with its
    body, its STable PMC 3 and STable struct, whose meta-object is PMC 5 and
    whose representation is PMC 6. *)
Definition example_closed : Interp :=
  {| mem :=
       <[1:=Cell_KnowHOWREPRInstance (mkKnowHOW (mkCommon 3) 0 0)]>
         (<[2:=Cell_STable (mkSTable 5 6 4)]>
            (<[3:=Cell_PMC (mkPMC class_STable 2)]>
               (<[4:=Cell_PMC (mkPMC class_RakudoObject 1)]>
                  (<[5:=Cell_PMC (mkPMC class_RakudoObject 0)]>
                     {[6:=Cell_PMC (mkPMC class_RakudoObject 0)]}))));
     gc_alive := [] |}.

Section KnowHOWREPR.

(** The address of the singleton Null PMC.  Builds without null catching
    have [PMCNULL = NULL]; the development holds for either. *)
Variable PMCNULL : PMC.

(** The machine's floating-point type; the representation never inspects a
    value of it. *)
Variable FLOATVAL : Type.

(** [PMC_IS_NULL(p)]: [p] is the C null pointer or the Null PMC. *)
Definition PMC_IS_NULL (p : PMC) : bool :=
  bool_decide (p = NULL) || bool_decide (p = PMCNULL).

(** ** The store *)

(** The allocator hands out an address that is not in use and is neither
    [NULL] nor [PMCNULL]. *)
Definition fresh_addr (s : Interp) : N :=
  fresh ({[NULL; PMCNULL]} ∪ dom (mem s)).

Definition mem_alloc (c : cell) : M ptr := λ s,
  let a := fresh_addr s in (Returned a, with_mem <[a:=c]> s).

Definition load (a : ptr) : M cell := λ s,
  match mem s !! a with
  | Some c => (Returned c, s)
  | None => (Crashed, s)
  end.

Definition store (a : ptr) (c : cell) : M unit := λ s,
  match mem s !! a with
  | Some _ => (Returned (), with_mem <[a:=c]> s)
  | None => (Crashed, s)
  end.

(** Reading and writing a struct through a typed pointer. *)
Definition load_KnowHOWREPRInstance (p : ptr) : M KnowHOWREPRInstance :=
  c ← load p;
  match c with Cell_KnowHOWREPRInstance i => mret i | _ => crash end.

Definition load_RakudoObjectCommonalities (p : ptr) : M RakudoObjectCommonalities :=
  c ← load p;
  match commonalities_of c with Some x => mret x | None => crash end.

Definition load_STable (p : ptr) : M STable :=
  c ← load p;
  match c with Cell_STable st => mret st | _ => crash end.

Definition update_KnowHOWREPRInstance (p : ptr)
    (f : KnowHOWREPRInstance → KnowHOWREPRInstance) : M unit :=
  i ← load_KnowHOWREPRInstance p;
  store p (Cell_KnowHOWREPRInstance (f i)).

Definition update_STable (p : ptr) (f : STable → STable) : M unit :=
  st ← load_STable p;
  store p (Cell_STable (f st)).

(** [PMC_data(p)] *)
Definition PMC_data (p : PMC) : M ptr :=
  c ← load p;
  match c with Cell_PMC h => mret (pmc_data h) | _ => crash end.

(** [mem_allocate_zeroed_typed(KnowHOWREPRInstance)] *)
Definition mem_allocate_zeroed_KnowHOWREPRInstance : M ptr :=
  mem_alloc (Cell_KnowHOWREPRInstance (mkKnowHOW (mkCommon NULL) NULL NULL)).

(** [pmc_new(interp, base_type)]: a new, empty container of the virtual
    machine, with its storage. *)
Definition pmc_new (b : base_type) : M PMC :=
  d ← mem_alloc (match b with
                 | enum_class_Hash => Cell_Hash ∅
                 | enum_class_ResizablePMCArray => Cell_ResizablePMCArray []
                 end);
  mem_alloc (Cell_PMC (mkPMC (class_builtin b) d)).

(** [Parrot_ex_throw_from_c_args(interp, NULL, type, msg)] does not return:
    control leaves the calling function with the exception.  The exception
    object the virtual machine builds for it is not part of the store
    modelled here. *)
Definition Parrot_ex_throw_from_c_args {A} (e : exception_type) (msg : string) : M A :=
  λ s, (Thrown e msg, s).

(** [Parrot_gc_mark_PMC_alive(interp, p)]: the collector is told that [p] is
    reachable; the calls are recorded in order. *)
Definition Parrot_gc_mark_PMC_alive (p : PMC) : M unit := λ s,
  (Returned (), {| mem := mem s; gc_alive := gc_alive s ++ [p] |}).

(** Modelled from the spec: [wrap_object] of rakudoobject.c is missing; it
    wraps an object body in a fresh RakudoObject PMC. *)
Definition wrap_object (obj : ptr) : M PMC :=
  mem_alloc (Cell_PMC (mkPMC class_RakudoObject obj)).

(** Modelled from the spec: [create_stable] of rakudoobject.c is missing; it
    makes a newly created STable linking the representation and the
    meta-object, with no type object yet. *)
Definition create_stable (REPR HOW : PMC) : M PMC :=
  st ← mem_alloc (Cell_STable (mkSTable HOW REPR NULL));
  mem_alloc (Cell_PMC (mkPMC class_STable st)).

(** [STABLE_STRUCT(p)] is [PMC_data(p)] cast to a pointer to [STable]. *)
Definition STABLE_STRUCT (p : PMC) : M ptr := PMC_data p.

(** [STABLE_PMC(o)] is the [stable] field read through [PMC_data(o)] cast
    to a pointer to [RakudoObjectCommonalities]. *)
Definition STABLE_PMC (o : PMC) : M PMC :=
  d ← PMC_data o;
  c ← load_RakudoObjectCommonalities d;
  mret (stable c).

(** Modelled from the spec: [NO_HINT] of rakudoobject.h is missing; it is the
    sentinel meaning that no hint is available. *)
Definition NO_HINT : INTVAL := (-1)%Z.

(** ** The representation's functions *)

Definition type_object_for (self HOW : PMC) : M PMC :=
  obj ← mem_allocate_zeroed_KnowHOWREPRInstance;
  st_pmc ← create_stable self HOW;
  st ← STABLE_STRUCT st_pmc;
  what ← wrap_object obj;
  update_STable st (set_WHAT what);;
  update_KnowHOWREPRInstance obj (set_stable st_pmc);;
  t ← load_STable st;
  mret (WHAT t).

Definition instance_of (self WHAT : PMC) : M PMC :=
  obj ← mem_allocate_zeroed_KnowHOWREPRInstance;
  v ← STABLE_PMC WHAT;
  update_KnowHOWREPRInstance obj (set_stable v);;
  v ← pmc_new enum_class_Hash;
  update_KnowHOWREPRInstance obj (set_methods v);;
  v ← pmc_new enum_class_ResizablePMCArray;
  update_KnowHOWREPRInstance obj (set_attributes v);;
  wrap_object obj.

(** [p->f] for a pointer [p] to a [KnowHOWREPRInstance] and a field [f]. *)
Definition field {F} (p : ptr) (f : KnowHOWREPRInstance → F) : M F :=
  i ← load_KnowHOWREPRInstance p;
  mret (f i).

Definition defined (self obj : PMC) : M INTVAL :=
  instance ← PMC_data obj;
  m ← field instance methods;
  mret (if negb (PMC_IS_NULL m) then 1%Z else 0%Z).

Definition get_attribute (self obj class_handle : PMC) (name : string) : M PMC :=
  Parrot_ex_throw_from_c_args EXCEPTION_INVALID_OPERATION
    "KnowHOWREPR does not support attribute storage".

Definition get_attribute_with_hint (self obj class_handle : PMC) (name : string)
    (hint : INTVAL) : M PMC :=
  Parrot_ex_throw_from_c_args EXCEPTION_INVALID_OPERATION
    "KnowHOWREPR does not support attribute storage".

Definition bind_attribute (self obj class_handle : PMC) (name : string)
    (value : PMC) : M unit :=
  Parrot_ex_throw_from_c_args EXCEPTION_INVALID_OPERATION
    "KnowHOWREPR does not support attribute storage".

Definition bind_attribute_with_hint (self obj class_handle : PMC) (name : string)
    (hint : INTVAL) (value : PMC) : M unit :=
  Parrot_ex_throw_from_c_args EXCEPTION_INVALID_OPERATION
    "KnowHOWREPR does not support attribute storage".

Definition hint_for (self class_handle : PMC) (name : string) : M INTVAL :=
  mret NO_HINT.

Definition set_int (self obj : PMC) (value : INTVAL) : M unit :=
  Parrot_ex_throw_from_c_args EXCEPTION_INVALID_OPERATION
    "KnowHOWREPR cannot box a native int".

Definition get_int (self obj : PMC) : M INTVAL :=
  Parrot_ex_throw_from_c_args EXCEPTION_INVALID_OPERATION
    "KnowHOWREPR cannot unbox to a native int".

Definition set_num (self obj : PMC) (value : FLOATVAL) : M unit :=
  Parrot_ex_throw_from_c_args EXCEPTION_INVALID_OPERATION
    "KnowHOWREPR cannot box a native num".

Definition get_num (self obj : PMC) : M FLOATVAL :=
  Parrot_ex_throw_from_c_args EXCEPTION_INVALID_OPERATION
    "KnowHOWREPR cannot unbox to a native num".

Definition set_str (self obj : PMC) (value : string) : M unit :=
  Parrot_ex_throw_from_c_args EXCEPTION_INVALID_OPERATION
    "KnowHOWREPR cannot box a native string".

Definition get_str (self obj : PMC) : M string :=
  Parrot_ex_throw_from_c_args EXCEPTION_INVALID_OPERATION
    "KnowHOWREPR cannot unbox to a native string".

(** [if (!PMC_IS_NULL(instance->f)) Parrot_gc_mark_PMC_alive(interp, instance->f);] *)
Definition mark_field (instance : ptr) (f : KnowHOWREPRInstance → PMC) : M unit :=
  v ← field instance f;
  if negb (PMC_IS_NULL v)
  then v ← field instance f; Parrot_gc_mark_PMC_alive v
  else mret ().

Definition gc_mark (self obj : PMC) : M unit :=
  instance ← PMC_data obj;
  mark_field instance (stable ∘ common);;
  mark_field instance methods;;
  mark_field instance attributes.

(** ** Observations used to state the properties *)

(** The body of a KnowHOW object, read as the functions above read it. *)
Definition KnowHOW_instance (obj : PMC) : M KnowHOWREPRInstance :=
  instance ← PMC_data obj;
  load_KnowHOWREPRInstance instance.

(** The STable struct behind an STable PMC. *)
Definition STable_of (st_pmc : PMC) : M STable :=
  st ← STABLE_STRUCT st_pmc;
  load_STable st.

(** The contents of a Hash PMC and of a ResizablePMCArray PMC. *)
Definition Hash_contents (p : PMC) : M (gmap string N) :=
  d ← PMC_data p;
  c ← load d;
  match c with Cell_Hash h => mret h | _ => crash end.

Definition ResizablePMCArray_contents (p : PMC) : M (list N) :=
  d ← PMC_data p;
  c ← load d;
  match c with Cell_ResizablePMCArray l => mret l | _ => crash end.

(** The references a trace must report for an object body: the three fields
    in declaration order, without the null ones. *)
Definition owned_references (i : KnowHOWREPRInstance) : list PMC :=
  List.filter (λ p, negb (PMC_IS_NULL p))
    [stable (common i); methods i; attributes i].

Definition mark_all (ps : list PMC) (s : Interp) : Interp :=
  {| mem := mem s; gc_alive := gc_alive s ++ ps |}.

(** A computation run from [s] returns, and its result and final interpreter
    satisfy [Q]. *)
Definition returns {A} (c : M A) (s : Interp) (Q : A → Interp → Prop) : Prop :=
  match c s with
  | (Returned a, s') => Q a s'
  | _ => False
  end.

(** A computation that never leaves through an exception. *)
Definition never_throws {A} (c : M A) : Prop :=
  ∀ s e msg, (c s).1 ≠ Thrown e msg.

(** The pointers a cell holds. *)
Definition refs_of (c : cell) : list ptr :=
  match c with
  | Cell_PMC h => [pmc_data h]
  | Cell_KnowHOWREPRInstance i => [stable (common i); methods i; attributes i]
  | Cell_RakudoObject c => [stable c]
  | Cell_STable st => [HOW st; REPR st; WHAT st]
  | Cell_Hash h => (map_to_list h).*2
  | Cell_ResizablePMCArray l => l
  end.

(** A pointer that may be followed or tested: null, or the address of a
    cell. *)
Definition live (s : Interp) (p : ptr) : bool :=
  PMC_IS_NULL p || bool_decide (is_Some (mem s !! p)).

(** A store without dangling pointers: every pointer held by a cell is
    live. *)
Definition closed (s : Interp) : bool :=
  forallb (λ ac, forallb (live s) (refs_of ac.2)) (map_to_list (mem s)).

(** ** Reasoning rules for the monad and the store *)

Lemma returns_elim {A} (c : M A) s Q :
  returns c s Q → ∃ a s', c s = (Returned a, s') ∧ Q a s'.
Proof.
  unfold returns. destruct (c s) as [[a| |] s']; [eauto | done | done].
Qed.

Lemma returns_intro {A} (c : M A) s a s' (Q : A → Interp → Prop) :
  c s = (Returned a, s') → Q a s' → returns c s Q.
Proof. unfold returns. by intros ->. Qed.

Lemma returns_ret {A} (a : A) s (Q : A → Interp → Prop) :
  Q a s → returns (mret a) s Q.
Proof. done. Qed.

Lemma bind_run {A B} (c : M A) (f : A → M B) s a s' :
  c s = (Returned a, s') → (c ≫= f) s = f a s'.
Proof. unfold mbind, M_bind. by intros ->. Qed.

Lemma returns_bind {A B} (c : M A) (f : A → M B) s Q :
  returns c s (λ a s', returns (f a) s' Q) → returns (c ≫= f) s Q.
Proof.
  unfold returns, mbind, M_bind.
  destruct (c s) as [[a| |] s']; done.
Qed.

Lemma used_ne_unused (m : gmap N cell) a b c :
  m !! a = Some c → m !! b = None → a ≠ b.
Proof. intros Ha Hb ->. by rewrite Ha in Hb. Qed.

(** An address unused after some stores was unused before them and differs
    from each address stored to. *)
Ltac split_unused :=
  simpl in *;
  repeat match goal with
         | H : <[_:=_]> _ !! _ = None |- _ =>
             apply lookup_insert_None in H as [H ?]
         end.

Lemma fresh_addr_unused s : mem s !! fresh_addr s = None.
Proof.
  apply not_elem_of_dom. unfold fresh_addr.
  pose proof (is_fresh ({[NULL; PMCNULL]} ∪ dom (mem s))). set_solver.
Qed.

Lemma fresh_addr_not_null s : PMC_IS_NULL (fresh_addr s) = false.
Proof.
  unfold PMC_IS_NULL, fresh_addr.
  pose proof (is_fresh ({[NULL; PMCNULL]} ∪ dom (mem s))) as Hf.
  rewrite !bool_decide_eq_false_2; [done | set_solver | set_solver].
Qed.

Lemma PMC_IS_NULL_NULL : PMC_IS_NULL NULL = true.
Proof. unfold PMC_IS_NULL. by rewrite bool_decide_eq_true_2. Qed.

Lemma returns_mem_alloc c s (Q : N → Interp → Prop) :
  (∀ a, mem s !! a = None → PMC_IS_NULL a = false →
        Q a (with_mem <[a:=c]> s)) →
  returns (mem_alloc c) s Q.
Proof.
  intros HQ. unfold returns, mem_alloc.
  apply HQ; [apply fresh_addr_unused | apply fresh_addr_not_null].
Qed.

Lemma returns_load a c s (Q : cell → Interp → Prop) :
  mem s !! a = Some c → Q c s → returns (load a) s Q.
Proof. intros Ha HQ. unfold returns, load. by rewrite Ha. Qed.

Lemma returns_store a c c0 s (Q : unit → Interp → Prop) :
  mem s !! a = Some c0 → Q () (with_mem <[a:=c]> s) → returns (store a c) s Q.
Proof. intros Ha HQ. unfold returns, store. by rewrite Ha. Qed.

Lemma returns_PMC_data p h s (Q : N → Interp → Prop) :
  mem s !! p = Some (Cell_PMC h) → Q (pmc_data h) s → returns (PMC_data p) s Q.
Proof.
  intros Hp HQ. apply returns_bind, (returns_load _ _ _ _ Hp). by apply returns_ret.
Qed.

Lemma returns_load_KnowHOWREPRInstance p i s (Q : KnowHOWREPRInstance → Interp → Prop) :
  mem s !! p = Some (Cell_KnowHOWREPRInstance i) → Q i s →
  returns (load_KnowHOWREPRInstance p) s Q.
Proof.
  intros Hp HQ. apply returns_bind, (returns_load _ _ _ _ Hp). by apply returns_ret.
Qed.

Lemma returns_load_STable p st s (Q : STable → Interp → Prop) :
  mem s !! p = Some (Cell_STable st) → Q st s → returns (load_STable p) s Q.
Proof.
  intros Hp HQ. apply returns_bind, (returns_load _ _ _ _ Hp). by apply returns_ret.
Qed.

Lemma returns_field {F} p (f : KnowHOWREPRInstance → F) i s (Q : F → Interp → Prop) :
  mem s !! p = Some (Cell_KnowHOWREPRInstance i) → Q (f i) s →
  returns (field p f) s Q.
Proof.
  intros Hp HQ.
  apply returns_bind, (returns_load_KnowHOWREPRInstance _ _ _ _ Hp).
  by apply returns_ret.
Qed.

Lemma returns_update_KnowHOWREPRInstance p f i s (Q : unit → Interp → Prop) :
  mem s !! p = Some (Cell_KnowHOWREPRInstance i) →
  Q () (with_mem <[p:=Cell_KnowHOWREPRInstance (f i)]> s) →
  returns (update_KnowHOWREPRInstance p f) s Q.
Proof.
  intros Hp HQ.
  apply returns_bind, (returns_load_KnowHOWREPRInstance _ _ _ _ Hp).
  by apply (returns_store _ _ _ _ _ Hp).
Qed.

Lemma returns_update_STable p f st s (Q : unit → Interp → Prop) :
  mem s !! p = Some (Cell_STable st) →
  Q () (with_mem <[p:=Cell_STable (f st)]> s) →
  returns (update_STable p f) s Q.
Proof.
  intros Hp HQ.
  apply returns_bind, (returns_load_STable _ _ _ _ Hp).
  by apply (returns_store _ _ _ _ _ Hp).
Qed.

(** ** Running the observations on a known store *)

Lemma PMC_data_run p h s :
  mem s !! p = Some (Cell_PMC h) → PMC_data p s = (Returned (pmc_data h), s).
Proof.
  intros Hp. unfold PMC_data, load, mbind, M_bind. by rewrite Hp.
Qed.

Lemma load_KnowHOWREPRInstance_run p i s :
  mem s !! p = Some (Cell_KnowHOWREPRInstance i) →
  load_KnowHOWREPRInstance p s = (Returned i, s).
Proof.
  intros Hp. unfold load_KnowHOWREPRInstance, load, mbind, M_bind. by rewrite Hp.
Qed.

Lemma KnowHOW_instance_run o h i s :
  mem s !! o = Some (Cell_PMC h) →
  mem s !! pmc_data h = Some (Cell_KnowHOWREPRInstance i) →
  KnowHOW_instance o s = (Returned i, s).
Proof.
  intros Ho Hd. unfold KnowHOW_instance, mbind, M_bind at 1.
  by rewrite (PMC_data_run _ _ _ Ho), (load_KnowHOWREPRInstance_run _ _ _ Hd).
Qed.

Lemma KnowHOW_instance_inv o i s :
  (KnowHOW_instance o s).1 = Returned i →
  ∃ h, mem s !! o = Some (Cell_PMC h) ∧
       mem s !! pmc_data h = Some (Cell_KnowHOWREPRInstance i).
Proof.
  unfold KnowHOW_instance, PMC_data, load_KnowHOWREPRInstance, load, mbind, M_bind.
  destruct (mem s !! o) as [[h| | | | |]|] eqn:Ho; simpl; try done.
  destruct (mem s !! pmc_data h) as [[|i'| | | |]|] eqn:Hd; simpl; try done.
  intros [= ->]. eauto.
Qed.

Lemma STABLE_PMC_run o h c x s :
  mem s !! o = Some (Cell_PMC h) →
  mem s !! pmc_data h = Some c →
  commonalities_of c = Some x →
  STABLE_PMC o s = (Returned (stable x), s).
Proof.
  intros Ho Hd Hc. unfold STABLE_PMC, mbind, M_bind at 1.
  rewrite (PMC_data_run _ _ _ Ho).
  unfold load_RakudoObjectCommonalities, load, mbind, M_bind.
  by rewrite Hd, Hc.
Qed.

Lemma STABLE_PMC_KnowHOW o h i s :
  mem s !! o = Some (Cell_PMC h) →
  mem s !! pmc_data h = Some (Cell_KnowHOWREPRInstance i) →
  STABLE_PMC o s = (Returned (stable (common i)), s).
Proof. intros Ho Hd. by apply (STABLE_PMC_run o h _ (common i) s Ho Hd). Qed.

Lemma STABLE_PMC_inv o v s :
  (STABLE_PMC o s).1 = Returned v →
  ∃ h c x, mem s !! o = Some (Cell_PMC h) ∧
           mem s !! pmc_data h = Some c ∧
           commonalities_of c = Some x ∧
           stable x = v.
Proof.
  unfold STABLE_PMC, PMC_data, load_RakudoObjectCommonalities, load, mbind, M_bind.
  destruct (mem s !! o) as [[h| | | | |]|] eqn:Ho; simpl; try done.
  destruct (mem s !! pmc_data h) as [c|] eqn:Hd; simpl; try done.
  destruct (commonalities_of c) as [x|] eqn:Hc; simpl; try done.
  intros [= <-]. eauto 10.
Qed.

Lemma STable_of_run p h st s :
  mem s !! p = Some (Cell_PMC h) →
  mem s !! pmc_data h = Some (Cell_STable st) →
  STable_of p s = (Returned st, s).
Proof.
  intros Hp Hd. unfold STable_of, STABLE_STRUCT, mbind, M_bind at 1.
  rewrite (PMC_data_run _ _ _ Hp).
  unfold load_STable, load, mbind, M_bind. by rewrite Hd.
Qed.

Lemma Hash_contents_run p h m s :
  mem s !! p = Some (Cell_PMC h) →
  mem s !! pmc_data h = Some (Cell_Hash m) →
  Hash_contents p s = (Returned m, s).
Proof.
  intros Hp Hd. unfold Hash_contents, mbind, M_bind at 1.
  rewrite (PMC_data_run _ _ _ Hp).
  unfold load, mbind, M_bind. by rewrite Hd.
Qed.

Lemma ResizablePMCArray_contents_run p h l s :
  mem s !! p = Some (Cell_PMC h) →
  mem s !! pmc_data h = Some (Cell_ResizablePMCArray l) →
  ResizablePMCArray_contents p s = (Returned l, s).
Proof.
  intros Hp Hd. unfold ResizablePMCArray_contents, mbind, M_bind at 1.
  rewrite (PMC_data_run _ _ _ Hp).
  unfold load, mbind, M_bind. by rewrite Hd.
Qed.

Lemma defined_run self o h i s :
  mem s !! o = Some (Cell_PMC h) →
  mem s !! pmc_data h = Some (Cell_KnowHOWREPRInstance i) →
  defined self o s = (Returned (if PMC_IS_NULL (methods i) then 0%Z else 1%Z), s).
Proof.
  intros Ho Hd. unfold defined, field, mbind, M_bind.
  rewrite (PMC_data_run _ _ _ Ho), (load_KnowHOWREPRInstance_run _ _ _ Hd).
  unfold mret, M_ret. by destruct (PMC_IS_NULL (methods i)).
Qed.

Lemma mark_field_run p f i s :
  mem s !! p = Some (Cell_KnowHOWREPRInstance i) →
  mark_field p f s =
    (Returned (), mark_all (List.filter (λ v, negb (PMC_IS_NULL v)) [f i]) s).
Proof.
  intros Hp. unfold mark_field, field, mbind, M_bind.
  rewrite (load_KnowHOWREPRInstance_run _ _ _ Hp). unfold mret, M_ret. simpl.
  destruct (PMC_IS_NULL (f i)); simpl.
  - unfold mark_all. rewrite app_nil_r. by destruct s.
  - by rewrite (load_KnowHOWREPRInstance_run _ _ _ Hp).
Qed.

Lemma mark_all_app ps qs s : mark_all qs (mark_all ps s) = mark_all (ps ++ qs) s.
Proof. unfold mark_all. simpl. by rewrite app_assoc. Qed.

Lemma gc_mark_run self o h i s :
  mem s !! o = Some (Cell_PMC h) →
  mem s !! pmc_data h = Some (Cell_KnowHOWREPRInstance i) →
  gc_mark self o s = (Returned (), mark_all (owned_references i) s).
Proof.
  intros Ho Hd. unfold gc_mark, mbind, M_bind.
  rewrite (PMC_data_run _ _ _ Ho).
  rewrite (mark_field_run _ _ _ _ Hd).
  rewrite (mark_field_run _ _ i) by done.
  rewrite (mark_field_run _ _ i) by done.
  rewrite !mark_all_app. unfold owned_references. simpl.
  by destruct (PMC_IS_NULL (stable (common i))), (PMC_IS_NULL (methods i)),
    (PMC_IS_NULL (attributes i)).
Qed.

(** ** What the two constructors build *)

(** The store after [type_object_for]: four new cells (the type object's PMC,
    its body, the STable's PMC and the STable struct), all else untouched. *)
Lemma type_object_for_spec self HOW s :
  ∃ T s' obj st_pmc st,
    type_object_for self HOW s = (Returned T, s') ∧
    mem s' !! T = Some (Cell_PMC (mkPMC class_RakudoObject obj)) ∧
    mem s' !! obj =
      Some (Cell_KnowHOWREPRInstance (mkKnowHOW (mkCommon st_pmc) NULL NULL)) ∧
    mem s' !! st_pmc = Some (Cell_PMC (mkPMC class_STable st)) ∧
    mem s' !! st = Some (Cell_STable (mkSTable HOW self T)) ∧
    PMC_IS_NULL T = false ∧ PMC_IS_NULL st_pmc = false ∧
    mem s !! T = None ∧ mem s !! obj = None ∧
    mem s !! st_pmc = None ∧ mem s !! st = None ∧
    gc_alive s' = gc_alive s ∧
    (∀ a c, mem s !! a = Some c → mem s' !! a = Some c).
Proof.
  cut (returns (type_object_for self HOW) s (λ T s', ∃ obj st_pmc st,
    mem s' !! T = Some (Cell_PMC (mkPMC class_RakudoObject obj)) ∧
    mem s' !! obj =
      Some (Cell_KnowHOWREPRInstance (mkKnowHOW (mkCommon st_pmc) NULL NULL)) ∧
    mem s' !! st_pmc = Some (Cell_PMC (mkPMC class_STable st)) ∧
    mem s' !! st = Some (Cell_STable (mkSTable HOW self T)) ∧
    PMC_IS_NULL T = false ∧ PMC_IS_NULL st_pmc = false ∧
    mem s !! T = None ∧ mem s !! obj = None ∧
    mem s !! st_pmc = None ∧ mem s !! st = None ∧
    gc_alive s' = gc_alive s ∧
    (∀ a c, mem s !! a = Some c → mem s' !! a = Some c))).
  { intros (T & s' & Hrun & obj & st_pmc & st & H)%returns_elim.
    exists T, s', obj, st_pmc, st. by split. }
  unfold type_object_for, mem_allocate_zeroed_KnowHOWREPRInstance.
  apply returns_bind, returns_mem_alloc; intros obj Hobj _.
  apply returns_bind. unfold create_stable.
  apply returns_bind, returns_mem_alloc; intros st Hst _.
  apply returns_mem_alloc; intros st_pmc Hstp Hstp_nn. split_unused.
  apply returns_bind. unfold STABLE_STRUCT.
  eapply returns_PMC_data; [simpl; by simplify_map_eq |]. simpl.
  apply returns_bind. unfold wrap_object.
  apply returns_mem_alloc; intros what Hwhat Hwhat_nn. split_unused.
  apply returns_bind.
  eapply returns_update_STable; [simpl; by simplify_map_eq |].
  apply returns_bind.
  eapply returns_update_KnowHOWREPRInstance; [simpl; by simplify_map_eq |].
  apply returns_bind.
  eapply returns_load_STable; [simpl; by simplify_map_eq |].
  apply returns_ret. simpl.
  exists obj, st_pmc, st. unfold set_WHAT, set_stable. simpl.
  repeat split; try done; try by simplify_map_eq.
  intros a c Ha.
  assert (a ≠ obj ∧ a ≠ st ∧ a ≠ st_pmc ∧ a ≠ what) as (? & ? & ? & ?)
    by (repeat split; by eapply used_ne_unused).
  by simplify_map_eq.
Qed.

(** The store after [instance_of] on an object whose STable reference can be
    read: six new cells (the instance's PMC and body, the Hash PMC and its
    storage, the array PMC and its storage), all else untouched. *)
Lemma instance_of_spec self W v s :
  (STABLE_PMC W s).1 = Returned v →
  ∃ I s' obj m md a ad,
    instance_of self W s = (Returned I, s') ∧
    mem s' !! I = Some (Cell_PMC (mkPMC class_RakudoObject obj)) ∧
    mem s' !! obj = Some (Cell_KnowHOWREPRInstance (mkKnowHOW (mkCommon v) m a)) ∧
    mem s' !! m = Some (Cell_PMC (mkPMC (class_builtin enum_class_Hash) md)) ∧
    mem s' !! md = Some (Cell_Hash ∅) ∧
    mem s' !! a =
      Some (Cell_PMC (mkPMC (class_builtin enum_class_ResizablePMCArray) ad)) ∧
    mem s' !! ad = Some (Cell_ResizablePMCArray []) ∧
    PMC_IS_NULL I = false ∧ PMC_IS_NULL m = false ∧ PMC_IS_NULL a = false ∧
    mem s !! I = None ∧ mem s !! obj = None ∧ mem s !! m = None ∧
    mem s !! md = None ∧ mem s !! a = None ∧ mem s !! ad = None ∧
    m ≠ a ∧
    gc_alive s' = gc_alive s ∧
    (∀ x c, mem s !! x = Some c → mem s' !! x = Some c).
Proof.
  intros (h & body & com & HW & Hc & Hcom & <-)%STABLE_PMC_inv.
  cut (returns (instance_of self W) s (λ I s', ∃ obj m md a ad,
    mem s' !! I = Some (Cell_PMC (mkPMC class_RakudoObject obj)) ∧
    mem s' !! obj =
      Some (Cell_KnowHOWREPRInstance (mkKnowHOW (mkCommon (stable com)) m a)) ∧
    mem s' !! m = Some (Cell_PMC (mkPMC (class_builtin enum_class_Hash) md)) ∧
    mem s' !! md = Some (Cell_Hash ∅) ∧
    mem s' !! a =
      Some (Cell_PMC (mkPMC (class_builtin enum_class_ResizablePMCArray) ad)) ∧
    mem s' !! ad = Some (Cell_ResizablePMCArray []) ∧
    PMC_IS_NULL I = false ∧ PMC_IS_NULL m = false ∧ PMC_IS_NULL a = false ∧
    mem s !! I = None ∧ mem s !! obj = None ∧ mem s !! m = None ∧
    mem s !! md = None ∧ mem s !! a = None ∧ mem s !! ad = None ∧
    m ≠ a ∧
    gc_alive s' = gc_alive s ∧
    (∀ x c, mem s !! x = Some c → mem s' !! x = Some c))).
  { intros (I & s' & Hrun & obj & m & md & a & ad & H)%returns_elim.
    exists I, s', obj, m, md, a, ad. by split. }
  unfold instance_of, mem_allocate_zeroed_KnowHOWREPRInstance.
  apply returns_bind, returns_mem_alloc; intros obj Hobj _.
  assert (W ≠ obj) by by eapply used_ne_unused.
  assert (pmc_data h ≠ obj) by by eapply used_ne_unused.
  apply returns_bind.
  eapply returns_intro.
  { apply (STABLE_PMC_run W h body com); simpl; by simplify_map_eq. }
  apply returns_bind.
  eapply returns_update_KnowHOWREPRInstance; [simpl; by simplify_map_eq |].
  apply returns_bind. unfold pmc_new.
  apply returns_bind, returns_mem_alloc; intros md Hmd _.
  apply returns_mem_alloc; intros m Hm Hm_nn. split_unused.
  apply returns_bind.
  eapply returns_update_KnowHOWREPRInstance; [simpl; by simplify_map_eq |].
  apply returns_bind.
  apply returns_bind, returns_mem_alloc; intros ad Had _.
  apply returns_mem_alloc; intros a Ha Ha_nn. split_unused.
  apply returns_bind.
  eapply returns_update_KnowHOWREPRInstance; [simpl; by simplify_map_eq |].
  unfold wrap_object.
  apply returns_mem_alloc; intros I HI HI_nn. split_unused.
  exists obj, m, md, a, ad.
  unfold set_stable, set_methods, set_attributes. simpl.
  repeat split; try done; try by simplify_map_eq.
  intros x c Hx.
  assert (x ≠ obj ∧ x ≠ md ∧ x ≠ m ∧ x ≠ ad ∧ x ≠ a ∧ x ≠ I)
    as (? & ? & ? & ? & ? & ?) by (repeat split; by eapply used_ne_unused).
  by simplify_map_eq.
Qed.

(** Reading an STable reference is unaffected by cells allocated later. *)
Lemma STABLE_PMC_frame o v s s' :
  (STABLE_PMC o s).1 = Returned v →
  (∀ x c, mem s !! x = Some c → mem s' !! x = Some c) →
  STABLE_PMC o s' = (Returned v, s').
Proof.
  intros (h & c & x & Ho & Hd & Hc & <-)%STABLE_PMC_inv Hframe.
  apply (STABLE_PMC_run o h c x s'); [by apply Hframe | by apply Hframe | done].
Qed.

(** [instance_of] uses its argument only to read the STable reference. *)
Lemma instance_of_same_stable self W W' v s :
  (STABLE_PMC W s).1 = Returned v →
  (STABLE_PMC W' s).1 = Returned v →
  instance_of self W' s = instance_of self W s.
Proof.
  intros HW HW'.
  unfold instance_of, mem_allocate_zeroed_KnowHOWREPRInstance.
  rewrite !(bind_run (mem_alloc _) _ s _ _ eq_refl).
  assert (∀ x c, mem s !! x = Some c →
    mem (with_mem <[fresh_addr s:=Cell_KnowHOWREPRInstance
                      (mkKnowHOW (mkCommon NULL) NULL NULL)]> s) !! x = Some c)
    as Hframe.
  { intros x c Hx. simpl. rewrite lookup_insert_ne; [done |].
    apply not_eq_sym. eapply used_ne_unused; [done | apply fresh_addr_unused]. }
  by rewrite (bind_run (STABLE_PMC W') _ _ _ _ (STABLE_PMC_frame _ _ _ _ HW' Hframe)),
    (bind_run (STABLE_PMC W) _ _ _ _ (STABLE_PMC_frame _ _ _ _ HW Hframe)).
Qed.

(** ** Tracing *)

(** C1: tracing a KnowHOW object hands to the marking callback the STable
    reference, the method mapping and the attribute sequence, once each and in
    that order, leaving out those that are null; it marks nothing else and
    changes nothing else. *)
Theorem gc_mark_visits_owned_references self obj i s :
  (KnowHOW_instance obj s).1 = Returned i →
  gc_mark self obj s =
    (Returned (),
     {| mem := mem s;
        gc_alive :=
          gc_alive s ++
          List.filter (λ p, negb (PMC_IS_NULL p))
            [stable (common i); methods i; attributes i] |}).
Proof.
  intros (h & Ho & Hd)%KnowHOW_instance_inv.
  by rewrite (gc_mark_run self obj h i s Ho Hd).
Qed.

(** C10: tracing the type object that [type_object_for] has just returned
    marks exactly one PMC, its STable reference: its method mapping and its
    attribute sequence are still null. *)
Theorem gc_mark_fresh_type_object self HOW s :
  ∃ T s' st_pmc,
    type_object_for self HOW s = (Returned T, s') ∧
    KnowHOW_instance T s' =
      (Returned (mkKnowHOW (mkCommon st_pmc) NULL NULL), s') ∧
    PMC_IS_NULL st_pmc = false ∧
    gc_mark self T s' =
      (Returned (), {| mem := mem s'; gc_alive := gc_alive s' ++ [st_pmc] |}).
Proof.
  destruct (type_object_for_spec self HOW s)
    as (T & s' & obj & st_pmc & st & Hrun & HT & Hobj & _ & _ & _ & Hnn & _).
  exists T, s', st_pmc. split; [done |].
  split; [by apply (KnowHOW_instance_run T _ _ s' HT) |].
  split; [done |].
  rewrite (gc_mark_run self T _ _ s' HT Hobj).
  unfold owned_references, mark_all.
  cbn [List.filter stable common methods attributes].
  by rewrite Hnn, PMC_IS_NULL_NULL.
Qed.

(** ** Attribute storage, hints and boxing *)

(** C2: the four attribute operations throw the invalid-operation exception
    whatever the object, class handle, name, hint and value are, and whatever
    the interpreter holds; the interpreter they leave is the one they were
    called in, so the object's method mapping and attribute sequence are
    unchanged. *)
Theorem attribute_operations_unsupported
    self obj class_handle name hint value s :
  get_attribute self obj class_handle name s =
    (Thrown EXCEPTION_INVALID_OPERATION
       "KnowHOWREPR does not support attribute storage", s) ∧
  get_attribute_with_hint self obj class_handle name hint s =
    (Thrown EXCEPTION_INVALID_OPERATION
       "KnowHOWREPR does not support attribute storage", s) ∧
  bind_attribute self obj class_handle name value s =
    (Thrown EXCEPTION_INVALID_OPERATION
       "KnowHOWREPR does not support attribute storage", s) ∧
  bind_attribute_with_hint self obj class_handle name hint value s =
    (Thrown EXCEPTION_INVALID_OPERATION
       "KnowHOWREPR does not support attribute storage", s) ∧
  ∀ s', s' ∈ [ (get_attribute self obj class_handle name s).2;
               (get_attribute_with_hint self obj class_handle name hint s).2;
               (bind_attribute self obj class_handle name value s).2;
               (bind_attribute_with_hint self obj class_handle name hint value s).2 ] →
    KnowHOW_instance obj s' = KnowHOW_instance obj s ∧
    (∀ p, Hash_contents p s' = Hash_contents p s) ∧
    (∀ p, ResizablePMCArray_contents p s' = ResizablePMCArray_contents p s).
Proof.
  repeat split; try done;
    repeat match goal with
           | H : _ ∈ _ :: _ |- _ => apply elem_of_cons in H as [-> | H]
           | H : _ ∈ [] |- _ => by apply elem_of_nil in H
           end; done.
Qed.

(** C8: [hint_for] returns the no-hint sentinel for every class handle and
    attribute name, and neither throws nor touches the interpreter. *)
Theorem hint_for_no_hint self class_handle name s :
  hint_for self class_handle name s = (Returned NO_HINT, s).
Proof. done. Qed.

(** C6: the six boxing and unboxing operations throw the invalid-operation
    exception for every object and every value, in every interpreter. *)
Theorem boxing_operations_unsupported
    self obj (i : INTVAL) (n : FLOATVAL) (str : string) s :
  set_int self obj i s =
    (Thrown EXCEPTION_INVALID_OPERATION
       "KnowHOWREPR cannot box a native int", s) ∧
  get_int self obj s =
    (Thrown EXCEPTION_INVALID_OPERATION
       "KnowHOWREPR cannot unbox to a native int", s) ∧
  set_num self obj n s =
    (Thrown EXCEPTION_INVALID_OPERATION
       "KnowHOWREPR cannot box a native num", s) ∧
  get_num self obj s =
    (Thrown EXCEPTION_INVALID_OPERATION
       "KnowHOWREPR cannot unbox to a native num", s) ∧
  set_str self obj str s =
    (Thrown EXCEPTION_INVALID_OPERATION
       "KnowHOWREPR cannot box a native string", s) ∧
  get_str self obj s =
    (Thrown EXCEPTION_INVALID_OPERATION
       "KnowHOWREPR cannot unbox to a native string", s).
Proof. by repeat split. Qed.

(** ** Type objects and instances *)

(** C3: the type object returned by [type_object_for] has a null method
    mapping, and [defined] answers false (0) on it. *)
Theorem type_object_not_defined self HOW s :
  ∃ T s' i,
    type_object_for self HOW s = (Returned T, s') ∧
    KnowHOW_instance T s' = (Returned i, s') ∧
    methods i = NULL ∧
    defined self T s' = (Returned 0%Z, s').
Proof.
  destruct (type_object_for_spec self HOW s)
    as (T & s' & obj & st_pmc & st & Hrun & HT & Hobj & _).
  eexists T, s', _. split; [done |].
  split; [by apply (KnowHOW_instance_run T _ _ s' HT) |].
  split; [done |].
  rewrite (defined_run self T _ _ s' HT Hobj).
  cbn [methods]. by rewrite PMC_IS_NULL_NULL.
Qed.

(** C7: when [type_object_for] returns the type object, its STable reference
    is a non-null, newly created STable whose type object is the returned
    object itself, whose representation is the one the function was called on
    and whose meta-object is the given one. *)
Theorem type_object_linked_to_new_stable self HOW s :
  ∃ T s' st_pmc st t,
    type_object_for self HOW s = (Returned T, s') ∧
    STABLE_PMC T s' = (Returned st_pmc, s') ∧
    PMC_IS_NULL st_pmc = false ∧
    mem s !! st_pmc = None ∧
    STABLE_STRUCT st_pmc s' = (Returned st, s') ∧
    mem s !! st = None ∧
    STable_of st_pmc s' = (Returned t, s') ∧
    t = {| HOW := HOW; REPR := self; WHAT := T |}.
Proof.
  destruct (type_object_for_spec self HOW s)
    as (T & s' & obj & st_pmc & st & Hrun & HT & Hobj & Hstp & Hst
        & _ & Hnn & _ & _ & Hf1 & Hf2 & _).
  eexists T, s', st_pmc, st, _. split; [done |].
  split; [exact (STABLE_PMC_KnowHOW T _ _ s' HT Hobj) |].
  do 2 (split; [done |]).
  split; [exact (PMC_data_run st_pmc _ s' Hstp) |].
  split; [done |].
  split; [by apply (STable_of_run st_pmc _ _ s' Hstp) | done].
Qed.

(** C4: for a type object made by [type_object_for], [instance_of] returns
    an instance on which [defined] answers true (1), whose method mapping is
    an empty Hash and whose attribute sequence is an empty array, both
    allocated by the call (PMC and storage alike) and distinct. *)
Theorem instance_of_type_object_defined self HOW T s s1 :
  type_object_for self HOW s = (Returned T, s1) →
  ∃ I s2 i md ad,
    instance_of self T s1 = (Returned I, s2) ∧
    defined self I s2 = (Returned 1%Z, s2) ∧
    KnowHOW_instance I s2 = (Returned i, s2) ∧
    Hash_contents (methods i) s2 = (Returned ∅, s2) ∧
    ResizablePMCArray_contents (attributes i) s2 = (Returned [], s2) ∧
    PMC_data (methods i) s2 = (Returned md, s2) ∧
    PMC_data (attributes i) s2 = (Returned ad, s2) ∧
    mem s1 !! methods i = None ∧ mem s1 !! md = None ∧
    mem s1 !! attributes i = None ∧ mem s1 !! ad = None ∧
    methods i ≠ attributes i.
Proof.
  intros Hrun.
  destruct (type_object_for_spec self HOW s)
    as (T' & s' & obj & st_pmc & st & Hrun' & HT & Hobj & _).
  rewrite Hrun in Hrun'. injection Hrun' as <- <-.
  destruct (instance_of_spec self T st_pmc s1)
    as (I & s2 & obj' & m & md & a & ad & Hi & HI & Hobj' & Hm & Hmd & Ha & Had
        & _ & Hm_nn & _ & _ & _ & Hfm & Hfmd & Hfa & Hfad & Hne & _).
  { by rewrite (STABLE_PMC_KnowHOW T _ _ s1 HT Hobj). }
  eexists I, s2, _, md, ad. split; [done |].
  split.
  { rewrite (defined_run self I _ _ s2 HI Hobj'). simpl. by rewrite Hm_nn. }
  split; [by apply (KnowHOW_instance_run I _ _ s2 HI) |]. simpl.
  split; [by apply (Hash_contents_run m _ _ s2 Hm) |].
  split; [by apply (ResizablePMCArray_contents_run a _ _ s2 Ha) |].
  split; [exact (PMC_data_run m _ s2 Hm) |].
  split; [exact (PMC_data_run a _ s2 Ha) |].
  done.
Qed.

(** C5: the instance returned by [instance_of] has the STable reference of
    the type object it was made from, which keeps its own. *)
Theorem instance_of_shares_stable self T st_pmc s :
  (STABLE_PMC T s).1 = Returned st_pmc →
  ∃ I s',
    instance_of self T s = (Returned I, s') ∧
    STABLE_PMC I s' = (Returned st_pmc, s') ∧
    STABLE_PMC T s' = (Returned st_pmc, s').
Proof.
  intros HT.
  destruct (instance_of_spec self T st_pmc s HT)
    as (I & s' & obj & m & md & a & ad & Hi & HI & Hobj & _ & _ & _ & _
        & _ & _ & _ & _ & _ & _ & _ & _ & _ & _ & _ & Hframe).
  exists I, s'. split; [done |].
  split; [exact (STABLE_PMC_KnowHOW I _ _ s' HI Hobj) |].
  by apply (STABLE_PMC_frame T st_pmc s s').
Qed.

(** C9: [instance_of] needs nothing of its argument but a readable STable
    reference.  On any such object, already defined or not, it returns a new,
    non-null, defined instance with that STable reference, and the whole
    outcome is the same for any other argument with the same STable
    reference. *)
Theorem instance_of_reads_only_stable self W st_pmc s :
  (STABLE_PMC W s).1 = Returned st_pmc →
  ∃ I s',
    instance_of self W s = (Returned I, s') ∧
    mem s !! I = None ∧
    PMC_IS_NULL I = false ∧
    defined self I s' = (Returned 1%Z, s') ∧
    STABLE_PMC I s' = (Returned st_pmc, s') ∧
    ∀ W', (STABLE_PMC W' s).1 = Returned st_pmc →
          instance_of self W' s = (Returned I, s').
Proof.
  intros HW.
  destruct (instance_of_spec self W st_pmc s HW)
    as (I & s' & obj & m & md & a & ad & Hi & HI & Hobj & _ & _ & _ & _
        & HI_nn & Hm_nn & _ & HfI & _).
  exists I, s'. split; [done |]. do 2 (split; [done |]).
  split.
  { rewrite (defined_run self I _ _ s' HI Hobj). simpl. by rewrite Hm_nn. }
  split; [exact (STABLE_PMC_KnowHOW I _ _ s' HI Hobj) |].
  intros W' HW'.
  by rewrite (instance_of_same_stable self W W' st_pmc s HW HW').
Qed.

(** ** The whole effect of the two constructors *)

(** Equal stores, by looking up an arbitrary address on both sides. *)
Ltac solve_store_eq :=
  apply map_eq; intros ?; rewrite !lookup_insert;
  repeat case_decide; simplify_eq; done.

(** Unpack the distinctness and freshness facts of the new addresses. *)
Ltac unpack_effect Hnd Hf :=
  apply Forall_forall in Hf;
  rewrite ?Forall_cons in Hf;
  rewrite ?NoDup_cons, ?not_elem_of_cons in Hnd;
  destruct_and!; split_unused.

Ltac solve_NoDup :=
  rewrite ?NoDup_cons, ?not_elem_of_cons;
  repeat split; try done; try apply not_elem_of_nil; try apply NoDup_nil;
  try exact I.

(** [type_object_for] adds four cells to the store (the type object's PMC,
    its body, the STable's PMC and the STable struct) at four distinct unused
    non-null addresses, and does nothing else. *)
Lemma type_object_for_exact self HOW s :
  ∃ T obj st_pmc st,
    NoDup [T; obj; st_pmc; st] ∧
    (∀ a, a ∈ [T; obj; st_pmc; st] → mem s !! a = None ∧ PMC_IS_NULL a = false) ∧
    type_object_for self HOW s =
      (Returned T,
       {| mem :=
            <[T:=Cell_PMC (mkPMC class_RakudoObject obj)]>
              (<[obj:=Cell_KnowHOWREPRInstance
                        (mkKnowHOW (mkCommon st_pmc) NULL NULL)]>
                 (<[st_pmc:=Cell_PMC (mkPMC class_STable st)]>
                    (<[st:=Cell_STable (mkSTable HOW self T)]> (mem s))));
          gc_alive := gc_alive s |}).
Proof.
  cut (returns (type_object_for self HOW) s (λ T s', ∃ obj st_pmc st,
    NoDup [T; obj; st_pmc; st] ∧
    (∀ a, a ∈ [T; obj; st_pmc; st] → mem s !! a = None ∧ PMC_IS_NULL a = false) ∧
    s' = {| mem :=
              <[T:=Cell_PMC (mkPMC class_RakudoObject obj)]>
                (<[obj:=Cell_KnowHOWREPRInstance
                          (mkKnowHOW (mkCommon st_pmc) NULL NULL)]>
                   (<[st_pmc:=Cell_PMC (mkPMC class_STable st)]>
                      (<[st:=Cell_STable (mkSTable HOW self T)]> (mem s))));
            gc_alive := gc_alive s |})).
  { intros (T & s' & Hrun & obj & st_pmc & st & Hnd & Hfresh & ->)%returns_elim.
    by exists T, obj, st_pmc, st. }
  unfold type_object_for, mem_allocate_zeroed_KnowHOWREPRInstance.
  apply returns_bind, returns_mem_alloc; intros obj Hobj Hobj_nn.
  apply returns_bind. unfold create_stable.
  apply returns_bind, returns_mem_alloc; intros st Hst Hst_nn.
  apply returns_mem_alloc; intros st_pmc Hstp Hstp_nn. split_unused.
  apply returns_bind. unfold STABLE_STRUCT.
  eapply returns_PMC_data; [simpl; by simplify_map_eq |]. simpl.
  apply returns_bind. unfold wrap_object.
  apply returns_mem_alloc; intros what Hwhat Hwhat_nn. split_unused.
  apply returns_bind.
  eapply returns_update_STable; [simpl; by simplify_map_eq |].
  apply returns_bind.
  eapply returns_update_KnowHOWREPRInstance; [simpl; by simplify_map_eq |].
  apply returns_bind.
  eapply returns_load_STable; [simpl; by simplify_map_eq |].
  apply returns_ret. simpl.
  exists obj, st_pmc, st. unfold set_WHAT, set_stable, with_mem. simpl.
  split; [solve_NoDup |]. split.
  - intros a Ha. repeat (apply elem_of_cons in Ha as [-> | Ha]; [done |]).
    by apply elem_of_nil in Ha.
  - f_equal. solve_store_eq.
Qed.

(** X1: [type_object_for] always returns, and its whole effect on the
    interpreter is four new cells (the type object's PMC, its body, the
    STable's PMC and the STable struct) at four distinct, previously unused,
    non-null addresses: the store grows by exactly four cells and the marking
    log is untouched. *)
Theorem type_object_for_effect self HOW s :
  ∃ T obj st_pmc st s',
    NoDup [T; obj; st_pmc; st] ∧
    (∀ a, a ∈ [T; obj; st_pmc; st] → mem s !! a = None ∧ PMC_IS_NULL a = false) ∧
    type_object_for self HOW s = (Returned T, s') ∧
    mem s' =
      <[T:=Cell_PMC (mkPMC class_RakudoObject obj)]>
        (<[obj:=Cell_KnowHOWREPRInstance
                  (mkKnowHOW (mkCommon st_pmc) NULL NULL)]>
           (<[st_pmc:=Cell_PMC (mkPMC class_STable st)]>
              (<[st:=Cell_STable (mkSTable HOW self T)]> (mem s)))) ∧
    gc_alive s' = gc_alive s ∧
    size (mem s') = (4 + size (mem s))%nat.
Proof.
  destruct (type_object_for_exact self HOW s)
    as (T & obj & st_pmc & st & Hnd & Hf & Hrun).
  eexists T, obj, st_pmc, st, _.
  split; [exact Hnd |]. split; [exact Hf |]. split; [exact Hrun |].
  simpl. do 2 (split; [done |]).
  unpack_effect Hnd Hf.
  rewrite !map_size_insert_None; [done | by simplify_map_eq ..].
Qed.

(** [instance_of], on any argument whose STable reference can be read, adds
    six cells at six distinct unused non-null addresses (the instance's PMC
    and body, an empty Hash with its PMC, an empty array with its PMC), and
    does nothing else.  The containers are empty whatever the argument
    holds: nothing is copied from it but the STable reference. *)
Lemma instance_of_exact self W v s :
  (STABLE_PMC W s).1 = Returned v →
  ∃ I obj m md a ad,
    NoDup [I; obj; m; md; a; ad] ∧
    (∀ x, x ∈ [I; obj; m; md; a; ad] →
          mem s !! x = None ∧ PMC_IS_NULL x = false) ∧
    instance_of self W s =
      (Returned I,
       {| mem :=
            <[I:=Cell_PMC (mkPMC class_RakudoObject obj)]>
              (<[obj:=Cell_KnowHOWREPRInstance (mkKnowHOW (mkCommon v) m a)]>
                 (<[m:=Cell_PMC (mkPMC (class_builtin enum_class_Hash) md)]>
                    (<[md:=Cell_Hash ∅]>
                       (<[a:=Cell_PMC
                               (mkPMC (class_builtin enum_class_ResizablePMCArray) ad)]>
                          (<[ad:=Cell_ResizablePMCArray []]> (mem s))))));
          gc_alive := gc_alive s |}).
Proof.
  intros (h & body & com & HW & Hc & Hcom & <-)%STABLE_PMC_inv.
  cut (returns (instance_of self W) s (λ I s', ∃ obj m md a ad,
    NoDup [I; obj; m; md; a; ad] ∧
    (∀ x, x ∈ [I; obj; m; md; a; ad] →
          mem s !! x = None ∧ PMC_IS_NULL x = false) ∧
    s' = {| mem :=
              <[I:=Cell_PMC (mkPMC class_RakudoObject obj)]>
                (<[obj:=Cell_KnowHOWREPRInstance
                          (mkKnowHOW (mkCommon (stable com)) m a)]>
                   (<[m:=Cell_PMC (mkPMC (class_builtin enum_class_Hash) md)]>
                      (<[md:=Cell_Hash ∅]>
                         (<[a:=Cell_PMC
                                 (mkPMC (class_builtin enum_class_ResizablePMCArray) ad)]>
                            (<[ad:=Cell_ResizablePMCArray []]> (mem s))))));
            gc_alive := gc_alive s |})).
  { intros (I & s' & Hrun & obj & m & md & a & ad & Hnd & Hfresh & ->)%returns_elim.
    by exists I, obj, m, md, a, ad. }
  unfold instance_of, mem_allocate_zeroed_KnowHOWREPRInstance.
  apply returns_bind, returns_mem_alloc; intros obj Hobj Hobj_nn.
  assert (W ≠ obj) by by eapply used_ne_unused.
  assert (pmc_data h ≠ obj) by by eapply used_ne_unused.
  apply returns_bind.
  eapply returns_intro.
  { apply (STABLE_PMC_run W h body com); simpl; by simplify_map_eq. }
  apply returns_bind.
  eapply returns_update_KnowHOWREPRInstance; [simpl; by simplify_map_eq |].
  apply returns_bind. unfold pmc_new.
  apply returns_bind, returns_mem_alloc; intros md Hmd Hmd_nn.
  apply returns_mem_alloc; intros m Hm Hm_nn. split_unused.
  apply returns_bind.
  eapply returns_update_KnowHOWREPRInstance; [simpl; by simplify_map_eq |].
  apply returns_bind.
  apply returns_bind, returns_mem_alloc; intros ad Had Had_nn.
  apply returns_mem_alloc; intros a Ha Ha_nn. split_unused.
  apply returns_bind.
  eapply returns_update_KnowHOWREPRInstance; [simpl; by simplify_map_eq |].
  unfold wrap_object.
  apply returns_mem_alloc; intros I HI HI_nn. split_unused.
  exists obj, m, md, a, ad.
  unfold set_stable, set_methods, set_attributes, with_mem. simpl.
  split; [solve_NoDup |]. split.
  - intros x Hx. repeat (apply elem_of_cons in Hx as [-> | Hx]; [done |]).
    by apply elem_of_nil in Hx.
  - f_equal. solve_store_eq.
Qed.

(** X3: on any argument whose STable reference can be read, [instance_of]
    returns, and its whole effect is six new cells (the instance's PMC and
    body, an empty Hash with its PMC, an empty array with its PMC) at six
    distinct, previously unused, non-null addresses.  The containers are
    empty whatever the argument holds: nothing is copied from it but the
    STable reference. *)
Theorem instance_of_effect self W v s :
  (STABLE_PMC W s).1 = Returned v →
  ∃ I obj m md a ad s',
    NoDup [I; obj; m; md; a; ad] ∧
    (∀ x, x ∈ [I; obj; m; md; a; ad] →
          mem s !! x = None ∧ PMC_IS_NULL x = false) ∧
    instance_of self W s = (Returned I, s') ∧
    mem s' =
      <[I:=Cell_PMC (mkPMC class_RakudoObject obj)]>
        (<[obj:=Cell_KnowHOWREPRInstance (mkKnowHOW (mkCommon v) m a)]>
           (<[m:=Cell_PMC (mkPMC (class_builtin enum_class_Hash) md)]>
              (<[md:=Cell_Hash ∅]>
                 (<[a:=Cell_PMC
                         (mkPMC (class_builtin enum_class_ResizablePMCArray) ad)]>
                    (<[ad:=Cell_ResizablePMCArray []]> (mem s)))))) ∧
    gc_alive s' = gc_alive s ∧
    size (mem s') = (6 + size (mem s))%nat.
Proof.
  intros HW.
  destruct (instance_of_exact self W v s HW)
    as (I & obj & m & md & a & ad & Hnd & Hf & Hrun).
  eexists I, obj, m, md, a, ad, _.
  split; [exact Hnd |]. split; [exact Hf |]. split; [exact Hrun |].
  simpl. do 2 (split; [done |]).
  unpack_effect Hnd Hf.
  rewrite !map_size_insert_None; [done | by simplify_map_eq ..].
Qed.

(** ** What the constructors leave alone *)

Lemma PMC_data_inv p d s :
  (PMC_data p s).1 = Returned d →
  ∃ h, mem s !! p = Some (Cell_PMC h) ∧ pmc_data h = d.
Proof.
  unfold PMC_data, load, mbind, M_bind.
  destruct (mem s !! p) as [[h| | | | |]|] eqn:Hp; simpl; try done.
  intros [= <-]. eauto.
Qed.

Lemma defined_inv self o d s :
  (defined self o s).1 = Returned d →
  ∃ h i, mem s !! o = Some (Cell_PMC h) ∧
         mem s !! pmc_data h = Some (Cell_KnowHOWREPRInstance i) ∧
         d = (if PMC_IS_NULL (methods i) then 0%Z else 1%Z).
Proof.
  unfold defined, field, PMC_data, load_KnowHOWREPRInstance, load, mbind, M_bind.
  destruct (mem s !! o) as [[h| | | | |]|] eqn:Ho; simpl; try done.
  destruct (mem s !! pmc_data h) as [[|i| | | |]|] eqn:Hd; simpl; try done.
  intros [= <-]. exists h, i. by destruct (PMC_IS_NULL (methods i)).
Qed.

Lemma STable_of_inv p t s :
  (STable_of p s).1 = Returned t →
  ∃ h, mem s !! p = Some (Cell_PMC h) ∧
       mem s !! pmc_data h = Some (Cell_STable t).
Proof.
  unfold STable_of, STABLE_STRUCT, PMC_data, load_STable, load, mbind, M_bind.
  destruct (mem s !! p) as [[h| | | | |]|] eqn:Hp; simpl; try done.
  destruct (mem s !! pmc_data h) as [[| | |t'| |]|] eqn:Hd; simpl; try done.
  intros [= ->]. eauto.
Qed.

Lemma Hash_contents_inv p m s :
  (Hash_contents p s).1 = Returned m →
  ∃ h, mem s !! p = Some (Cell_PMC h) ∧
       mem s !! pmc_data h = Some (Cell_Hash m).
Proof.
  unfold Hash_contents, PMC_data, load, mbind, M_bind.
  destruct (mem s !! p) as [[h| | | | |]|] eqn:Hp; simpl; try done.
  destruct (mem s !! pmc_data h) as [[| | | |m'|]|] eqn:Hd; simpl; try done.
  intros [= ->]. eauto.
Qed.

Lemma ResizablePMCArray_contents_inv p l s :
  (ResizablePMCArray_contents p s).1 = Returned l →
  ∃ h, mem s !! p = Some (Cell_PMC h) ∧
       mem s !! pmc_data h = Some (Cell_ResizablePMCArray l).
Proof.
  unfold ResizablePMCArray_contents, PMC_data, load, mbind, M_bind.
  destruct (mem s !! p) as [[h| | | | |]|] eqn:Hp; simpl; try done.
  destruct (mem s !! pmc_data h) as [[| | | | |l']|] eqn:Hd; simpl; try done.
  intros [= ->]. eauto.
Qed.

(** Whatever could be observed before cells were added can be observed
    after. *)
Lemma observations_preserved s s' :
  (∀ a c, mem s !! a = Some c → mem s' !! a = Some c) →
  (∀ r o d, (defined r o s).1 = Returned d → defined r o s' = (Returned d, s')) ∧
  (∀ o v, (STABLE_PMC o s).1 = Returned v → STABLE_PMC o s' = (Returned v, s')) ∧
  (∀ p t, (STable_of p s).1 = Returned t → STable_of p s' = (Returned t, s')) ∧
  (∀ p h, (Hash_contents p s).1 = Returned h →
          Hash_contents p s' = (Returned h, s')) ∧
  (∀ p l, (ResizablePMCArray_contents p s).1 = Returned l →
          ResizablePMCArray_contents p s' = (Returned l, s')).
Proof.
  intros Hframe. repeat split.
  - intros r o d (h & i & Ho & Hd & ->)%defined_inv.
    apply (defined_run r o h i s'); by apply Hframe.
  - intros o v Hv. by apply (STABLE_PMC_frame o v s s').
  - intros p t (h & Hp & Hd)%STable_of_inv.
    apply (STable_of_run p h t s'); by apply Hframe.
  - intros p m (h & Hp & Hd)%Hash_contents_inv.
    apply (Hash_contents_run p h m s'); by apply Hframe.
  - intros p l (h & Hp & Hd)%ResizablePMCArray_contents_inv.
    apply (ResizablePMCArray_contents_run p h l s'); by apply Hframe.
Qed.

Lemma type_object_for_frame self HOW s :
  ∃ T s',
    type_object_for self HOW s = (Returned T, s') ∧
    gc_alive s' = gc_alive s ∧
    (∀ a c, mem s !! a = Some c → mem s' !! a = Some c).
Proof.
  destruct (type_object_for_spec self HOW s)
    as (T & s' & obj & st_pmc & st & Hrun & _ & _ & _ & _ & _ & _ & _ & _ & _ & _
        & Hlog & Hframe).
  by exists T, s'.
Qed.

Lemma instance_of_frame self W v s :
  (STABLE_PMC W s).1 = Returned v →
  ∃ I s',
    instance_of self W s = (Returned I, s') ∧
    gc_alive s' = gc_alive s ∧
    (∀ a c, mem s !! a = Some c → mem s' !! a = Some c).
Proof.
  intros HW.
  destruct (instance_of_spec self W v s HW)
    as (I & s' & obj & m & md & a & ad & Hrun & _ & _ & _ & _ & _ & _
        & _ & _ & _ & _ & _ & _ & _ & _ & _ & _ & Hlog & Hframe).
  by exists I, s'.
Qed.

(** X2: [type_object_for] leaves every existing cell and the marking log as
    they were, so every object keeps its definedness and its STable
    reference, every STable its three links and every container its
    contents. *)
Theorem type_object_for_preserves self HOW s :
  ∃ T s',
    type_object_for self HOW s = (Returned T, s') ∧
    gc_alive s' = gc_alive s ∧
    (∀ a c, mem s !! a = Some c → mem s' !! a = Some c) ∧
    (∀ r o d, (defined r o s).1 = Returned d → defined r o s' = (Returned d, s')) ∧
    (∀ o u, (STABLE_PMC o s).1 = Returned u → STABLE_PMC o s' = (Returned u, s')) ∧
    (∀ p t, (STable_of p s).1 = Returned t → STable_of p s' = (Returned t, s')) ∧
    (∀ p h, (Hash_contents p s).1 = Returned h →
            Hash_contents p s' = (Returned h, s')) ∧
    (∀ p l, (ResizablePMCArray_contents p s).1 = Returned l →
            ResizablePMCArray_contents p s' = (Returned l, s')).
Proof.
  destruct (type_object_for_frame self HOW s) as (T & s' & Hrun & Hlog & Hframe).
  exists T, s'. do 3 (split; [done |]).
  by apply observations_preserved.
Qed.

(** X4: [instance_of] leaves every existing cell and the marking log as they
    were.  In particular its argument is not changed: a type object is as
    undefined after being instantiated as before. *)
Theorem instance_of_preserves self W v s :
  (STABLE_PMC W s).1 = Returned v →
  ∃ I s',
    instance_of self W s = (Returned I, s') ∧
    gc_alive s' = gc_alive s ∧
    (∀ a c, mem s !! a = Some c → mem s' !! a = Some c) ∧
    (∀ r o d, (defined r o s).1 = Returned d → defined r o s' = (Returned d, s')) ∧
    (∀ o u, (STABLE_PMC o s).1 = Returned u → STABLE_PMC o s' = (Returned u, s')) ∧
    (∀ p t, (STable_of p s).1 = Returned t → STable_of p s' = (Returned t, s')) ∧
    (∀ p h, (Hash_contents p s).1 = Returned h →
            Hash_contents p s' = (Returned h, s')) ∧
    (∀ p l, (ResizablePMCArray_contents p s).1 = Returned l →
            ResizablePMCArray_contents p s' = (Returned l, s')).
Proof.
  intros HW.
  destruct (instance_of_frame self W v s HW) as (I & s' & Hrun & Hlog & Hframe).
  exists I, s'. do 3 (split; [done |]).
  by apply observations_preserved.
Qed.

(** ** How the constructors compose *)

(** X5: two instances made from the same type object share its STable
    reference and nothing else: they are distinct objects, and their method
    mappings and attribute sequences are four distinct containers with four
    distinct storages.  The first instance is not changed by making the
    second. *)
Theorem instances_do_not_share_containers self T v s :
  (STABLE_PMC T s).1 = Returned v →
  ∃ I1 s1 I2 s2 i1 i2 md1 ad1 md2 ad2,
    instance_of self T s = (Returned I1, s1) ∧
    instance_of self T s1 = (Returned I2, s2) ∧
    I1 ≠ I2 ∧
    KnowHOW_instance I1 s1 = (Returned i1, s1) ∧
    KnowHOW_instance I1 s2 = (Returned i1, s2) ∧
    KnowHOW_instance I2 s2 = (Returned i2, s2) ∧
    stable (common i1) = v ∧ stable (common i2) = v ∧
    NoDup [methods i1; attributes i1; methods i2; attributes i2] ∧
    PMC_data (methods i1) s2 = (Returned md1, s2) ∧
    PMC_data (attributes i1) s2 = (Returned ad1, s2) ∧
    PMC_data (methods i2) s2 = (Returned md2, s2) ∧
    PMC_data (attributes i2) s2 = (Returned ad2, s2) ∧
    NoDup [md1; ad1; md2; ad2].
Proof.
  intros HT.
  destruct (instance_of_frame self T v s HT)
    as (I1' & s1' & Hrun1' & _ & Hframe1).
  destruct (instance_of_exact self T v s HT)
    as (I1 & obj1 & m1 & md1 & a1 & ad1 & Hnd1 & Hf1 & Hrun1).
  rewrite Hrun1 in Hrun1'. injection Hrun1' as <- <-.
  pose proof (STABLE_PMC_frame T v s _ HT Hframe1) as HT1.
  apply (f_equal fst) in HT1. simpl in HT1.
  destruct (instance_of_exact self T v _ HT1)
    as (I2 & obj2 & m2 & md2 & a2 & ad2 & Hnd2 & Hf2 & Hrun2).
  unpack_effect Hnd1 Hf1. unpack_effect Hnd2 Hf2.
  eexists I1, _, I2, _, (mkKnowHOW (mkCommon v) m1 a1),
    (mkKnowHOW (mkCommon v) m2 a2), md1, ad1, md2, ad2.
  split; [exact Hrun1 |]. split; [exact Hrun2 |]. split; [done |].
  split.
  { apply (KnowHOW_instance_run I1 (mkPMC class_RakudoObject obj1));
      simpl; by simplify_map_eq. }
  split.
  { apply (KnowHOW_instance_run I1 (mkPMC class_RakudoObject obj1));
      simpl; by simplify_map_eq. }
  split.
  { apply (KnowHOW_instance_run I2 (mkPMC class_RakudoObject obj2));
      simpl; by simplify_map_eq. }
  do 2 (split; [done |]). simpl.
  split; [solve_NoDup |].
  split.
  { apply (PMC_data_run m1 (mkPMC (class_builtin enum_class_Hash) md1)).
    simpl; by simplify_map_eq. }
  split.
  { apply (PMC_data_run a1 (mkPMC (class_builtin enum_class_ResizablePMCArray) ad1)).
    simpl; by simplify_map_eq. }
  split.
  { apply (PMC_data_run m2 (mkPMC (class_builtin enum_class_Hash) md2)).
    simpl; by simplify_map_eq. }
  split.
  { apply (PMC_data_run a2 (mkPMC (class_builtin enum_class_ResizablePMCArray) ad2)).
    simpl; by simplify_map_eq. }
  solve_NoDup.
Qed.

(** X6: making a type object and instantiating it gives two distinct objects
    with one STable, whose type-object link names the type object, not the
    instance; the type object is still undefined, the instance is defined. *)
Theorem instance_names_its_type_object self HOW s :
  ∃ T s1 I s2 st_pmc,
    type_object_for self HOW s = (Returned T, s1) ∧
    instance_of self T s1 = (Returned I, s2) ∧
    I ≠ T ∧
    STABLE_PMC T s2 = (Returned st_pmc, s2) ∧
    STABLE_PMC I s2 = (Returned st_pmc, s2) ∧
    STable_of st_pmc s2 =
      (Returned {| HOW := HOW; REPR := self; WHAT := T |}, s2) ∧
    defined self T s2 = (Returned 0%Z, s2) ∧
    defined self I s2 = (Returned 1%Z, s2).
Proof.
  destruct (type_object_for_exact self HOW s)
    as (T & obj & st_pmc & st & Hnd & Hf & Hrun).
  unpack_effect Hnd Hf.
  match type of Hrun with _ = (_, ?x) => set (s1 := x) in * end.
  assert (STABLE_PMC T s1 = (Returned st_pmc, s1)) as HT.
  { apply (STABLE_PMC_KnowHOW T (mkPMC class_RakudoObject obj)
             (mkKnowHOW (mkCommon st_pmc) NULL NULL));
      simpl; by simplify_map_eq. }
  destruct (instance_of_exact self T st_pmc s1)
    as (I & obj' & m & md & a & ad & Hnd' & Hf' & Hrun'); [by rewrite HT |].
  subst s1. unpack_effect Hnd' Hf'.
  eexists T, _, I, _, st_pmc.
  split; [exact Hrun |]. split; [exact Hrun' |]. split; [done |].
  split.
  { apply (STABLE_PMC_KnowHOW T (mkPMC class_RakudoObject obj)
             (mkKnowHOW (mkCommon st_pmc) NULL NULL));
      simpl; by simplify_map_eq. }
  split.
  { apply (STABLE_PMC_KnowHOW I (mkPMC class_RakudoObject obj')
             (mkKnowHOW (mkCommon st_pmc) m a));
      simpl; by simplify_map_eq. }
  split.
  { apply (STable_of_run st_pmc (mkPMC class_STable st));
      simpl; by simplify_map_eq. }
  split.
  { rewrite (defined_run self T (mkPMC class_RakudoObject obj)
               (mkKnowHOW (mkCommon st_pmc) NULL NULL))
      by (simpl; by simplify_map_eq).
    cbn [methods]. by rewrite PMC_IS_NULL_NULL. }
  rewrite (defined_run self I (mkPMC class_RakudoObject obj')
             (mkKnowHOW (mkCommon st_pmc) m a))
    by (simpl; by simplify_map_eq).
  cbn [methods].
  by match goal with H : PMC_IS_NULL m = false |- _ => rewrite H end.
Qed.

(** X7: [type_object_for] never reuses anything: two calls, even with the
    same representation and meta-object, give two distinct type objects, each
    linked with an STable of its own, and the second call does not disturb
    the links of the first. *)
Theorem type_objects_have_own_stables self1 HOW1 self2 HOW2 s :
  ∃ T1 s1 T2 s2 st1 st2,
    type_object_for self1 HOW1 s = (Returned T1, s1) ∧
    type_object_for self2 HOW2 s1 = (Returned T2, s2) ∧
    T1 ≠ T2 ∧ st1 ≠ st2 ∧
    STABLE_PMC T1 s2 = (Returned st1, s2) ∧
    STABLE_PMC T2 s2 = (Returned st2, s2) ∧
    STable_of st1 s2 =
      (Returned {| HOW := HOW1; REPR := self1; WHAT := T1 |}, s2) ∧
    STable_of st2 s2 =
      (Returned {| HOW := HOW2; REPR := self2; WHAT := T2 |}, s2).
Proof.
  destruct (type_object_for_exact self1 HOW1 s)
    as (T1 & obj1 & st1 & sst1 & Hnd1 & Hf1 & Hrun1).
  match type of Hrun1 with _ = (_, ?s1) =>
    destruct (type_object_for_exact self2 HOW2 s1)
      as (T2 & obj2 & st2 & sst2 & Hnd2 & Hf2 & Hrun2)
  end.
  unpack_effect Hnd1 Hf1. unpack_effect Hnd2 Hf2.
  eexists T1, _, T2, _, st1, st2.
  split; [exact Hrun1 |]. split; [exact Hrun2 |]. do 2 (split; [done |]).
  split.
  { apply (STABLE_PMC_KnowHOW T1 (mkPMC class_RakudoObject obj1)
             (mkKnowHOW (mkCommon st1) NULL NULL));
      simpl; by simplify_map_eq. }
  split.
  { apply (STABLE_PMC_KnowHOW T2 (mkPMC class_RakudoObject obj2)
             (mkKnowHOW (mkCommon st2) NULL NULL));
      simpl; by simplify_map_eq. }
  split.
  { apply (STable_of_run st1 (mkPMC class_STable sst1));
      simpl; by simplify_map_eq. }
  apply (STable_of_run st2 (mkPMC class_STable sst2));
    simpl; by simplify_map_eq.
Qed.

(** X8: tracing an instance that [instance_of] has just returned reports its
    STable reference (unless that is null), then its new method mapping,
    then its new attribute sequence, the last two being distinct. *)
Theorem gc_mark_new_instance self W v s :
  (STABLE_PMC W s).1 = Returned v →
  ∃ I s' i,
    instance_of self W s = (Returned I, s') ∧
    KnowHOW_instance I s' = (Returned i, s') ∧
    stable (common i) = v ∧
    methods i ≠ attributes i ∧
    gc_mark self I s' =
      (Returned (),
       {| mem := mem s';
          gc_alive :=
            gc_alive s ++ (if PMC_IS_NULL v then [] else [v]) ++
            [methods i; attributes i] |}).
Proof.
  intros HW.
  destruct (instance_of_spec self W v s HW)
    as (I & s' & obj & m & md & a & ad & Hrun & HI & Hobj & _ & _ & _ & _
        & _ & Hm_nn & Ha_nn & _ & _ & _ & _ & _ & _ & Hne & Hlog & _).
  exists I, s', (mkKnowHOW (mkCommon v) m a).
  split; [done |].
  split; [exact (KnowHOW_instance_run I _ _ s' HI Hobj) |].
  do 2 (split; [done |]).
  rewrite (gc_mark_run self I _ _ s' HI Hobj).
  unfold owned_references, mark_all.
  cbn [List.filter stable common methods attributes].
  rewrite Hm_nn, Ha_nn, Hlog. by destruct (PMC_IS_NULL v).
Qed.

(** ** The two readers: [defined] and [gc_mark] *)




(** ** Exceptions come from the unsupported operations only *)

Lemma never_throws_ret {A} (a : A) : never_throws (mret a).
Proof. by intros s e msg. Qed.

Lemma never_throws_bind {A B} (c : M A) (f : A → M B) :
  never_throws c → (∀ a, never_throws (f a)) → never_throws (c ≫= f).
Proof.
  intros Hc Hf s e msg. unfold mbind, M_bind.
  specialize (Hc s). destruct (c s) as [[a| |] s']; simpl in *.
  - apply Hf.
  - by destruct (Hc e0 msg0).
  - done.
Qed.

Lemma never_throws_crash {A} : never_throws (@crash A).
Proof. by intros s e msg. Qed.

Lemma never_throws_mem_alloc c : never_throws (mem_alloc c).
Proof. by intros s e msg. Qed.

Lemma never_throws_load a : never_throws (load a).
Proof. intros s e msg. unfold load. by destruct (mem s !! a). Qed.

Lemma never_throws_store a c : never_throws (store a c).
Proof. intros s e msg. unfold store. by destruct (mem s !! a). Qed.

Lemma never_throws_mark p : never_throws (Parrot_gc_mark_PMC_alive p).
Proof. by intros s e msg. Qed.

Ltac solve_never_throws :=
  repeat first
    [ apply never_throws_ret | apply never_throws_crash
    | apply never_throws_mem_alloc | apply never_throws_load
    | apply never_throws_store | apply never_throws_mark
    | apply never_throws_bind; [| intros ?]
    | match goal with
      | |- never_throws (match ?x with _ => _ end) => destruct x
      | |- never_throws (if ?b then _ else _) => destruct b
      end ].

(** X11: the five operations the representation supports never throw,
    whatever they are called on: exceptions come from the attribute and
    boxing operations only. *)
Theorem supported_operations_never_throw self HOW W obj class_handle name :
  never_throws (type_object_for self HOW) ∧
  never_throws (instance_of self W) ∧
  never_throws (defined self obj) ∧
  never_throws (hint_for self class_handle name) ∧
  never_throws (gc_mark self obj).
Proof.
  repeat split;
    unfold type_object_for, instance_of, defined, hint_for, gc_mark, mark_field,
      field, mem_allocate_zeroed_KnowHOWREPRInstance, create_stable, pmc_new,
      wrap_object, STABLE_STRUCT, STABLE_PMC, PMC_data,
      update_KnowHOWREPRInstance, update_STable, load_KnowHOWREPRInstance,
      load_RakudoObjectCommonalities, load_STable;
    solve_never_throws.
Qed.

Lemma bind_crash {A B} (c : M A) (f : A → M B) s :
  (c s).1 = Crashed → ((c ≫= f) s).1 = Crashed.
Proof. unfold mbind, M_bind. by destruct (c s) as [[a| |] s']. Qed.

(** X12: [instance_of] does not guard its argument: called on an address
    that holds no PMC (the null pointer, a stray pointer), it is an invalid
    dereference, not an exception. *)
Theorem instance_of_needs_a_PMC self W s :
  (PMC_data W s).1 = Crashed →
  (instance_of self W s).1 = Crashed.
Proof.
  intros HW. unfold instance_of, mem_allocate_zeroed_KnowHOWREPRInstance.
  rewrite (bind_run (mem_alloc _) _ s _ _ eq_refl).
  pose proof (fresh_addr_unused s) as Hfresh.
  assert ((PMC_data W (with_mem
             <[fresh_addr s:=Cell_KnowHOWREPRInstance
                               (mkKnowHOW (mkCommon NULL) NULL NULL)]> s)).1
          = Crashed) as HW'.
  { revert HW. unfold PMC_data, load, mbind, M_bind. simpl.
    destruct (decide (W = fresh_addr s)) as [-> | Hne].
    - intros _. by rewrite lookup_insert_eq.
    - rewrite lookup_insert_ne by done.
      by destruct (mem s !! W) as [[]|]. }
  by apply bind_crash, bind_crash.
Qed.

(** ** No dangling pointers *)

Lemma closed_spec s :
  closed s = true ↔
  ∀ a c p, mem s !! a = Some c → p ∈ refs_of c → live s p = true.
Proof.
  unfold closed. rewrite forallb_forall. split.
  - intros H a c p Ha Hp.
    specialize (H (a, c)). rewrite forallb_forall in H.
    apply H; [| by apply list_elem_of_In].
    by apply list_elem_of_In, elem_of_map_to_list.
  - intros H [a c] Hac%list_elem_of_In%elem_of_map_to_list.
    apply forallb_forall. intros p Hp%list_elem_of_In. by apply (H a c p).
Qed.

Lemma live_allocated s p c : mem s !! p = Some c → live s p = true.
Proof.
  intros Hp. unfold live. rewrite (bool_decide_eq_true_2 (is_Some _)); [| by eauto].
  apply orb_true_r.
Qed.

Lemma live_is_Some s p : is_Some (mem s !! p) → live s p = true.
Proof. intros [c Hc]. by apply (live_allocated s p c). Qed.

Lemma live_null s p : PMC_IS_NULL p = true → live s p = true.
Proof. intros Hp. unfold live. by rewrite Hp. Qed.

Lemma live_not_null s p :
  live s p = true → PMC_IS_NULL p = false → is_Some (mem s !! p).
Proof.
  unfold live. intros Hl Hp. rewrite Hp in Hl. simpl in Hl.
  by apply bool_decide_eq_true_1 in Hl.
Qed.

Lemma live_preserved s s' p :
  (∀ a c, mem s !! a = Some c → mem s' !! a = Some c) →
  live s p = true → live s' p = true.
Proof.
  intros Hframe Hl. destruct (PMC_IS_NULL p) eqn:Hp; [by apply live_null |].
  destruct (live_not_null s p Hl Hp) as [c Hc].
  apply (live_allocated s' p c). by apply Hframe.
Qed.

Ltac solve_live :=
  eapply live_is_Some; simpl; rewrite !lookup_insert_is_Some'; eauto 10.

(** Split a lookup in a store built by insertions into its cases. *)
Ltac split_cases :=
  repeat match goal with
         | H : _ ∨ _ |- _ => destruct H as [H | H]
         | H : _ ∧ _ |- _ => destruct H as [? H]
         end;
  simplify_eq.

(** Decide a membership in the pointers of a known cell. *)
Ltac split_refs H :=
  simpl in H;
  repeat (apply elem_of_cons in H as [-> | H]);
  try (by apply elem_of_nil in H).

(** X13: [type_object_for] keeps the store free of dangling pointers,
    provided the representation and the meta-object it is given are
    themselves null or allocated. *)
Theorem type_object_for_keeps_closed self HOW s :
  closed s = true →
  live s self = true →
  live s HOW = true →
  ∃ T s', type_object_for self HOW s = (Returned T, s') ∧ closed s' = true.
Proof.
  intros Hclosed Hself HHOW.
  destruct (type_object_for_frame self HOW s)
    as (T' & s' & Hrun' & _ & Hframe).
  destruct (type_object_for_exact self HOW s)
    as (T & obj & st_pmc & st & Hnd & Hf & Hrun).
  rewrite Hrun in Hrun'. injection Hrun' as <- <-.
  eexists T, _. split; [exact Hrun |].
  apply closed_spec. intros a c p Ha Hp.
  rewrite closed_spec in Hclosed.
  unpack_effect Hnd Hf.
  rewrite !lookup_insert_Some in Ha. split_cases.
  - split_refs Hp. solve_live.
  - split_refs Hp.
    + solve_live.
    + apply live_null, PMC_IS_NULL_NULL.
    + apply live_null, PMC_IS_NULL_NULL.
  - split_refs Hp. solve_live.
  - split_refs Hp.
    + by apply (live_preserved s).
    + by apply (live_preserved s).
    + solve_live.
  - apply (live_preserved s); [done |]. by eapply Hclosed.
Qed.

(** X14: [instance_of] keeps the store free of dangling pointers. *)
Theorem instance_of_keeps_closed self W v s :
  closed s = true →
  (STABLE_PMC W s).1 = Returned v →
  ∃ I s', instance_of self W s = (Returned I, s') ∧ closed s' = true.
Proof.
  intros Hclosed HW.
  destruct (instance_of_frame self W v s HW)
    as (I' & s' & Hrun' & _ & Hframe).
  destruct (instance_of_exact self W v s HW)
    as (I & obj & m & md & a & ad & Hnd & Hf & Hrun).
  rewrite Hrun in Hrun'. injection Hrun' as <- <-.
  eexists I, _. split; [exact Hrun |].
  rewrite closed_spec in Hclosed.
  assert (live s v = true) as Hv.
  { apply STABLE_PMC_inv in HW as (h & body & com & _ & Hbody & Hcom & <-).
    apply (Hclosed _ _ _ Hbody).
    destruct body; simplify_eq/=; by left. }
  apply closed_spec. intros x c p Hx Hp.
  unpack_effect Hnd Hf.
  rewrite !lookup_insert_Some in Hx. split_cases.
  - split_refs Hp. solve_live.
  - split_refs Hp.
    + by apply (live_preserved s).
    + solve_live.
    + solve_live.
  - split_refs Hp. solve_live.
  - simpl in Hp. rewrite map_to_list_empty in Hp. by apply elem_of_nil in Hp.
  - split_refs Hp. solve_live.
  - split_refs Hp.
  - apply (live_preserved s); [done |]. by eapply Hclosed.
Qed.

(** X15: in a store free of dangling pointers, every PMC that [gc_mark]
    hands to the collector is the address of an allocated cell. *)
Theorem gc_mark_reports_allocated self obj i s :
  closed s = true →
  (KnowHOW_instance obj s).1 = Returned i →
  ∃ l : list PMC,
    gc_mark self obj s =
      (Returned (), {| mem := mem s; gc_alive := gc_alive s ++ l |}) ∧
    ∀ p, p ∈ l → is_Some (mem s !! p).
Proof.
  intros Hclosed (h & Ho & Hd)%KnowHOW_instance_inv.
  exists (owned_references i).
  split; [exact (gc_mark_run self obj h i s Ho Hd) |].
  rewrite closed_spec in Hclosed.
  intros p Hp. unfold owned_references in Hp.
  apply list_elem_of_In, filter_In in Hp as [Hp%list_elem_of_In Hnn].
  apply negb_true_iff in Hnn.
  apply live_not_null; [| done]. by apply (Hclosed _ _ _ Hd).
Qed.

End KnowHOWREPR.

(** ** The theorems at work on the example interpreters *)

(** The bootstrap scenario on an empty store: make a type object, instantiate
    it, ask whether each is defined, then trace the instance. *)
Example bootstrap_scenario :
  (T ← type_object_for 0 7 8;
   dT ← defined 0 7 T;
   I ← instance_of 0 7 T;
   dI ← defined 0 7 I;
   i ← KnowHOW_instance I;
   gc_mark 0 7 I;;
   mret (T, dT, I, dI, i)) (mkInterp ∅ [])
  = (Returned (4, 0%Z, 10, 1%Z, mkKnowHOW (mkCommon 3) 7 9),
     {| mem :=
          <[5:=Cell_KnowHOWREPRInstance (mkKnowHOW (mkCommon 3) 7 9)]>
            (<[6:=Cell_Hash ∅]>
               (<[7:=Cell_PMC (mkPMC (class_builtin enum_class_Hash) 6)]>
                  (<[8:=Cell_ResizablePMCArray []]>
                     (<[9:=Cell_PMC
                             (mkPMC (class_builtin enum_class_ResizablePMCArray) 8)]>
                        (<[10:=Cell_PMC (mkPMC class_RakudoObject 5)]>
                           (mem example_type_object))))));
        gc_alive := [3; 7; 9] |}).
Proof. vm_compute. reflexivity. Qed.

(** With a Null PMC distinct from the C null pointer (here at address 1), a
    field holding either is skipped by the trace. *)
Example gc_mark_skips_both_nulls :
  gc_mark 1 7 10
    {| mem :=
         <[10:=Cell_PMC (mkPMC class_RakudoObject 11)]>
           {[11:=Cell_KnowHOWREPRInstance (mkKnowHOW (mkCommon 1) 0 12)]};
       gc_alive := [] |}
  = (Returned (),
     {| mem :=
          <[10:=Cell_PMC (mkPMC class_RakudoObject 11)]>
            {[11:=Cell_KnowHOWREPRInstance (mkKnowHOW (mkCommon 1) 0 12)]};
        gc_alive := [12] |}).
Proof. vm_compute. reflexivity. Qed.

(** A store whose STable names a representation and a meta-object that are
    not allocated has dangling pointers. *)
Example example_type_object_not_closed :
  closed 0 example_type_object = false.
Proof. reflexivity. Qed.

(** Calling [defined] on a PMC that wraps no KnowHOW body is undefined
    behaviour in C; the model reports it. *)
Example defined_on_a_container_crashes :
  (defined 0 7 12 example_instance).1 = Crashed.
Proof. reflexivity. Qed.

Lemma gc_mark_visits_owned_references_witness :
  (KnowHOW_instance 10 example_instance).1 =
    Returned (mkKnowHOW (mkCommon 3) 12 0) ∧
  gc_mark 0 7 10 example_instance =
    (Returned (), {| mem := mem example_instance; gc_alive := [5; 3; 12] |}).
Proof.
  split; [reflexivity |].
  apply (gc_mark_visits_owned_references 0 7 10
           (mkKnowHOW (mkCommon 3) 12 0) example_instance).
  reflexivity.
Defined.

Lemma instance_of_type_object_defined_witness :
  type_object_for 0 7 8 (mkInterp ∅ []) = (Returned 4, example_type_object) ∧
  ∃ I s2 i md ad,
    instance_of 0 7 4 example_type_object = (Returned I, s2) ∧
    defined 0 7 I s2 = (Returned 1%Z, s2) ∧
    KnowHOW_instance I s2 = (Returned i, s2) ∧
    Hash_contents (methods i) s2 = (Returned ∅, s2) ∧
    ResizablePMCArray_contents (attributes i) s2 = (Returned [], s2) ∧
    PMC_data (methods i) s2 = (Returned md, s2) ∧
    PMC_data (attributes i) s2 = (Returned ad, s2) ∧
    mem example_type_object !! methods i = None ∧
    mem example_type_object !! md = None ∧
    mem example_type_object !! attributes i = None ∧
    mem example_type_object !! ad = None ∧
    methods i ≠ attributes i.
Proof.
  split; [vm_compute; reflexivity |].
  apply (instance_of_type_object_defined 0 7 8 4 (mkInterp ∅ [])
           example_type_object).
  vm_compute; reflexivity.
Defined.

Lemma instance_of_shares_stable_witness :
  (STABLE_PMC 4 example_type_object).1 = Returned 3 ∧
  ∃ I s',
    instance_of 0 7 4 example_type_object = (Returned I, s') ∧
    STABLE_PMC I s' = (Returned 3, s') ∧
    STABLE_PMC 4 s' = (Returned 3, s').
Proof.
  split; [reflexivity |].
  apply (instance_of_shares_stable 0 7 4 3 example_type_object).
  reflexivity.
Defined.

Lemma instance_of_reads_only_stable_witness :
  (STABLE_PMC 10 example_instance).1 = Returned 3 ∧
  defined 0 7 10 example_instance = (Returned 1%Z, example_instance) ∧
  ∃ I s',
    instance_of 0 7 10 example_instance = (Returned I, s') ∧
    mem example_instance !! I = None ∧
    PMC_IS_NULL 0 I = false ∧
    defined 0 7 I s' = (Returned 1%Z, s') ∧
    STABLE_PMC I s' = (Returned 3, s') ∧
    ∀ W', (STABLE_PMC W' example_instance).1 = Returned 3 →
          instance_of 0 7 W' example_instance = (Returned I, s').
Proof.
  split; [reflexivity |]. split; [reflexivity |].
  apply (instance_of_reads_only_stable 0 7 10 3 example_instance).
  reflexivity.
Defined.

Lemma instance_of_effect_witness :
  (STABLE_PMC 10 example_instance).1 = Returned 3 ∧
  ∃ I obj m md a ad s',
    NoDup [I; obj; m; md; a; ad] ∧
    (∀ x, x ∈ [I; obj; m; md; a; ad] →
          mem example_instance !! x = None ∧ PMC_IS_NULL 0 x = false) ∧
    instance_of 0 7 10 example_instance = (Returned I, s') ∧
    mem s' =
      <[I:=Cell_PMC (mkPMC class_RakudoObject obj)]>
        (<[obj:=Cell_KnowHOWREPRInstance (mkKnowHOW (mkCommon 3) m a)]>
           (<[m:=Cell_PMC (mkPMC (class_builtin enum_class_Hash) md)]>
              (<[md:=Cell_Hash ∅]>
                 (<[a:=Cell_PMC
                         (mkPMC (class_builtin enum_class_ResizablePMCArray) ad)]>
                    (<[ad:=Cell_ResizablePMCArray []]>
                       (mem example_instance)))))) ∧
    gc_alive s' = gc_alive example_instance ∧
    size (mem s') = (6 + size (mem example_instance))%nat.
Proof.
  split; [reflexivity |].
  apply (instance_of_effect 0 7 10 3 example_instance).
  reflexivity.
Defined.

Lemma instance_of_preserves_witness :
  (STABLE_PMC 4 example_type_object).1 = Returned 3 ∧
  (defined 0 7 4 example_type_object).1 = Returned 0%Z ∧
  ∃ I s',
    instance_of 0 7 4 example_type_object = (Returned I, s') ∧
    defined 0 7 4 s' = (Returned 0%Z, s').
Proof.
  split; [reflexivity |]. split; [reflexivity |].
  destruct (instance_of_preserves 0 7 4 3 example_type_object eq_refl)
    as (I & s' & Hrun & _ & _ & Hdefined & _).
  exists I, s'. split; [exact Hrun |].
  apply Hdefined. reflexivity.
Defined.

Lemma instances_do_not_share_containers_witness :
  (STABLE_PMC 4 example_type_object).1 = Returned 3 ∧
  ∃ I1 s1 I2 s2 i1 i2 md1 ad1 md2 ad2,
    instance_of 0 7 4 example_type_object = (Returned I1, s1) ∧
    instance_of 0 7 4 s1 = (Returned I2, s2) ∧
    I1 ≠ I2 ∧
    KnowHOW_instance I1 s1 = (Returned i1, s1) ∧
    KnowHOW_instance I1 s2 = (Returned i1, s2) ∧
    KnowHOW_instance I2 s2 = (Returned i2, s2) ∧
    stable (common i1) = 3 ∧ stable (common i2) = 3 ∧
    NoDup [methods i1; attributes i1; methods i2; attributes i2] ∧
    PMC_data (methods i1) s2 = (Returned md1, s2) ∧
    PMC_data (attributes i1) s2 = (Returned ad1, s2) ∧
    PMC_data (methods i2) s2 = (Returned md2, s2) ∧
    PMC_data (attributes i2) s2 = (Returned ad2, s2) ∧
    NoDup [md1; ad1; md2; ad2].
Proof.
  split; [reflexivity |].
  apply (instances_do_not_share_containers 0 7 4 3 example_type_object).
  reflexivity.
Defined.

Lemma gc_mark_new_instance_witness :
  (STABLE_PMC 4 example_type_object).1 = Returned 3 ∧
  ∃ I s' i,
    instance_of 0 7 4 example_type_object = (Returned I, s') ∧
    KnowHOW_instance I s' = (Returned i, s') ∧
    stable (common i) = 3 ∧
    methods i ≠ attributes i ∧
    gc_mark 0 7 I s' =
      (Returned (),
       {| mem := mem s'; gc_alive := [3; methods i; attributes i] |}).
Proof.
  split; [reflexivity |].
  apply (gc_mark_new_instance 0 7 4 3 example_type_object).
  reflexivity.
Defined.

Lemma instance_of_needs_a_PMC_witness :
  (PMC_data 0 example_instance).1 = Crashed ∧
  (instance_of 0 7 0 example_instance).1 = Crashed.
Proof.
  split; [reflexivity |].
  apply (instance_of_needs_a_PMC 0 7 0 example_instance).
  reflexivity.
Defined.

Lemma type_object_for_keeps_closed_witness :
  closed 0 example_closed = true ∧
  live 0 example_closed 6 = true ∧
  live 0 example_closed 5 = true ∧
  ∃ T s',
    type_object_for 0 6 5 example_closed = (Returned T, s') ∧
    closed 0 s' = true.
Proof.
  split; [reflexivity |]. split; [reflexivity |]. split; [reflexivity |].
  apply (type_object_for_keeps_closed 0 6 5 example_closed); reflexivity.
Defined.

Lemma instance_of_keeps_closed_witness :
  closed 0 example_closed = true ∧
  (STABLE_PMC 4 example_closed).1 = Returned 3 ∧
  ∃ I s',
    instance_of 0 6 4 example_closed = (Returned I, s') ∧
    closed 0 s' = true.
Proof.
  split; [reflexivity |]. split; [reflexivity |].
  apply (instance_of_keeps_closed 0 6 4 3 example_closed); reflexivity.
Defined.

Lemma gc_mark_reports_allocated_witness :
  closed 0 example_closed = true ∧
  (KnowHOW_instance 4 example_closed).1 =
    Returned (mkKnowHOW (mkCommon 3) 0 0) ∧
  ∃ l : list PMC,
    gc_mark 0 6 4 example_closed =
      (Returned (),
       {| mem := mem example_closed;
          gc_alive := gc_alive example_closed ++ l |}) ∧
    ∀ p, p ∈ l → is_Some (mem example_closed !! p).
Proof.
  split; [reflexivity |]. split; [reflexivity |].
  apply (gc_mark_reports_allocated 0 6 4 (mkKnowHOW (mkCommon 3) 0 0)
           example_closed); reflexivity.
Defined.
